(** * rpc: the JSON-RPC client of one upstream daemon and its health record

    A shallow embedding of [rpc/rpc.go].  The client is a record that is
    threaded through every method; a method of [*RPCClient] becomes a
    computation in a small state monad whose runs either return or panic.
    The Go standard library (net/http, net/url, encoding/json, time, fmt) is
    not part of the repository: what it answers is collected in one record,
    [Lib], over which the whole development is parametrised.

    The locks of the source ([sync.RWMutex], [sync/atomic]) guard single
    reads and writes; the embedding is sequential and keeps their critical
    sections as atomic steps. *)

From Stdlib Require Import ZArith Lia.
From Stdlib.Strings Require Import Byte.
From stdpp Require Import base option list strings pretty gmap.

Local Open Scope Z_scope.
Set Warnings "-register-all".

(** ** Machine integers *)

(** Go's [int64]: arithmetic wraps around in two's complement. *)
Definition wrap64 (z : Z) : Z := (z + 2 ^ 63) mod 2 ^ 64 - 2 ^ 63.

(** [x++] on an [int64]. *)
Definition incr64 (z : Z) : Z := wrap64 (z + 1).

(** [atomic.AddInt64(&x, delta)], as the new value of [x]. *)
Definition AddInt64 (x delta : Z) : Z := wrap64 (x + delta).

Definition int64_range (z : Z) : Prop := - 2 ^ 63 <= z < 2 ^ 63.

(** ** Values of the Go runtime *)

Module errors.
(** A Go [error], observed through its message. *)
Record error : Type := New { Error : string }.
End errors.
Abbreviation error := errors.error.

(** Dynamic values, Go's [interface{}]: what [encoding/json] decodes into
    and what the request parameters are built from.  A [float64] is kept by
    its IEEE-754 bit pattern. *)
Inductive any : Type :=
| Nil
| Bool (b : bool)
| Int (n : Z)
| Float64 (bits : Z)
| Str (s : string)
| Strs (l : list string)
| Slice (l : list any)
| Map (m : gmap string any).

(** [v.(string)], the unchecked type assertion; [None] is the run-time panic.
    The argument is the result of a map index, so a missing key is the nil
    interface. *)
Definition assert_string (v : option any) : option string :=
  match v with
  | Some (Str s) => Some s
  | _ => None
  end.

(** [json.RawMessage] *)
Definition RawMessage : Type := list Byte.byte.

(** ** Reply types of the typed calls

    One module per Go struct, so that the fields keep their names.  Go's
    [int], [int64] and [uint32] fields are integers; their ranges play no part
    in what follows. *)

Module GetBlockTemplateReply.
Record t : Type := mk {
  Difficulty : Z;
  Height : Z;
  Blob : string;
  ReservedOffset : Z;
  PrevHash : string;
  ExpectedReward : Z
}.
End GetBlockTemplateReply.

Module GetInfoReply.
Record t : Type := mk {
  IncomingConnections : Z;
  OutgoingConnections : Z;
  Height : Z;
  TxPoolSize : Z;
  Status : string
}.
End GetInfoReply.

Module BlockHeader.
Record t : Type := mk {
  BlockSize : Z;
  Depth : Z;
  Difficulty : Z;
  Hash : string;
  Height : Z;
  MajorVersion : Z;
  MinorVersion : Z;
  Nonce : Z;
  NumTxes : Z;
  OrphanStatus : bool;
  PrevHash : string;
  Reward : Z;
  Timestamp : Z
}.
End BlockHeader.

Module GetBlockHeaderReply.
Record t : Type := mk {
  BlockHeader : BlockHeader.t;
  Status : string;
  Untrusted : bool
}.
End GetBlockHeaderReply.

Module GetBlockCountReply.
Record t : Type := mk {
  Count : Z;
  Status : string
}.
End GetBlockCountReply.

(** The response envelope.  A pointer field is an [option]; [Error] is a Go
    map, [None] being the nil map (JSON [null] or no [error] member) and
    [Some ∅] the empty object. *)
Record JSONRpcResp : Type := {
  Id : option RawMessage;
  Result : option RawMessage;
  Error : option (gmap string any)
}.

(** ** net/http, as far as the client touches it *)

Module http.
(** [http.Client]; only [Timeout] (nanoseconds) is ever set. *)
Record Client : Type := { Timeout : Z }.

Record Request : Type := {
  Method : string;
  URL : string;
  Header : gmap string (list string);
  ReqBody : list Byte.byte
}.

(** [req.Header.Set(key, value)] for a key in canonical form. *)
Definition Header_Set (key value : string) (req : Request) : Request :=
  {| Method := Method req; URL := URL req;
     Header := <[key := [value]]> (Header req);
     ReqBody := ReqBody req |}.

Record Response : Type := {
  Status : string;
  StatusCode : Z;
  Body : list Byte.byte
}.
End http.

(** Modelled from the spec: the upstream descriptor [pool.Upstream], whose
    package is not under the sources read here.  The spec's construction
    contract gives it a host, a port, a logical name and a timeout duration
    string; the type of the port is left open. *)
Module pool.
Record Upstream (Port : Type) : Type := {
  Name : string;
  Host : string;
  Port_ : Port;
  Timeout : string
}.
Arguments Name {Port} _.
Arguments Host {Port} _.
Arguments Port_ {Port} _.
Arguments Timeout {Port} _.
End pool.

(** ** The standard library, as an interface

    Every function returns what its Go counterpart returns: a pair of a
    result and an error, either of which may be nil.  The daemon behind
    [http_Do] answers as a function of the client and the request, which is
    all that a single call can observe. *)
Record Lib : Type := {
  (** [*url.URL] *)
  URL : Type;
  url_Parse : string -> option URL * option error;
  URL_String : URL -> string;
  (** the type of [pool.Upstream.Port] and its rendering by the verb [%v] *)
  Port : Type;
  fmt_v : Port -> string;
  time_ParseDuration : string -> Z * option error;
  json_Marshal : any -> list Byte.byte * option error;
  (** the conversion [string(n)] of an [int] *)
  string_of_int : Z -> string;
  http_NewRequest : string -> string -> list Byte.byte -> option http.Request * option error;
  (** the method [Do] of [http.Client] *)
  http_Do : http.Client -> http.Request -> option http.Response * option error;
  (** [json.NewDecoder(body).Decode(&rpcResp)] on a nil [*JSONRpcResp] *)
  json_Decode : list Byte.byte -> option JSONRpcResp * option error;
  (** [json.Unmarshal(raw, &reply)] on a nil pointer of each reply type *)
  Unmarshal_GetBlockTemplateReply : RawMessage -> option GetBlockTemplateReply.t * option error;
  Unmarshal_GetInfoReply : RawMessage -> option GetInfoReply.t * option error;
  Unmarshal_GetBlockCountReply : RawMessage -> option GetBlockCountReply.t * option error;
  Unmarshal_GetBlockHeaderReply : RawMessage -> option GetBlockHeaderReply.t * option error
}.

(** ** Computations that mutate the client and may panic *)

Inductive outcome (A : Type) : Type :=
| Return (a : A)
| Panic (msg : string).
Arguments Return {A} a.
Arguments Panic {A} msg.

Definition M (S A : Type) : Type := S -> outcome A * S.

Definition ret {S A : Type} (a : A) : M S A := fun s => (Return a, s).

Definition bind {S A B : Type} (m : M S A) (k : A -> M S B) : M S B :=
  fun s =>
    match m s with
    | (Return a, s') => k a s'
    | (Panic msg, s') => (Panic msg, s')
    end.

Definition panic {S A : Type} (msg : string) : M S A := fun s => (Panic msg, s).

Definition get {S : Type} : M S S := fun s => (Return s, s).

Definition modify {S : Type} (f : S -> S) : M S unit := fun s => (Return tt, f s).

(** The run-time errors the client can raise. *)
Definition nil_dereference : string :=
  "invalid memory address or nil pointer dereference".

Definition not_a_string : string :=
  "interface conversion: interface {} is not string".

(** Following a pointer: a nil pointer panics. *)
Definition deref {S A : Type} (p : option A) : M S A :=
  match p with
  | Some a => ret a
  | None => panic nil_dereference
  end.

(** [v.(string)] inside a computation. *)
Definition type_assert_string {S : Type} (v : option any) : M S string :=
  match assert_string v with
  | Some s => ret s
  | None => panic not_a_string
  end.

Notation "'let*' x ':=' c1 'in' c2" := (bind c1 (fun x => c2))
  (at level 10, x name, c1 at level 100, c2 at level 200).

Section Client.

Context (L : Lib).

(** [atomic.Value]: empty until the first [Store]; the only values ever
    stored are of type [*GetInfoReply], possibly the nil pointer. *)
Definition atomic_Value : Type := option (option GetInfoReply.t).

Record RPCClient : Type := {
  sickRate : Z;
  successRate : Z;
  Accepts : Z;
  Rejects : Z;
  LastSubmissionAt : Z;
  FailsCount : Z;
  Url : option (URL L);
  Name : string;
  sick : bool;
  client : option http.Client;
  info : atomic_Value
}.

(** Assignments to single fields. *)
Definition set_sickRate (v : Z) (r : RPCClient) : RPCClient :=
  {| sickRate := v; successRate := successRate r; Accepts := Accepts r;
     Rejects := Rejects r; LastSubmissionAt := LastSubmissionAt r;
     FailsCount := FailsCount r; Url := Url r; Name := Name r;
     sick := sick r; client := client r; info := info r |}.

Definition set_successRate (v : Z) (r : RPCClient) : RPCClient :=
  {| sickRate := sickRate r; successRate := v; Accepts := Accepts r;
     Rejects := Rejects r; LastSubmissionAt := LastSubmissionAt r;
     FailsCount := FailsCount r; Url := Url r; Name := Name r;
     sick := sick r; client := client r; info := info r |}.

Definition set_FailsCount (v : Z) (r : RPCClient) : RPCClient :=
  {| sickRate := sickRate r; successRate := successRate r; Accepts := Accepts r;
     Rejects := Rejects r; LastSubmissionAt := LastSubmissionAt r;
     FailsCount := v; Url := Url r; Name := Name r;
     sick := sick r; client := client r; info := info r |}.

Definition set_sick (v : bool) (r : RPCClient) : RPCClient :=
  {| sickRate := sickRate r; successRate := successRate r; Accepts := Accepts r;
     Rejects := Rejects r; LastSubmissionAt := LastSubmissionAt r;
     FailsCount := FailsCount r; Url := Url r; Name := Name r;
     sick := v; client := client r; info := info r |}.

Definition set_client (v : option http.Client) (r : RPCClient) : RPCClient :=
  {| sickRate := sickRate r; successRate := successRate r; Accepts := Accepts r;
     Rejects := Rejects r; LastSubmissionAt := LastSubmissionAt r;
     FailsCount := FailsCount r; Url := Url r; Name := Name r;
     sick := sick r; client := v; info := info r |}.

Definition set_info (v : atomic_Value) (r : RPCClient) : RPCClient :=
  {| sickRate := sickRate r; successRate := successRate r; Accepts := Accepts r;
     Rejects := Rejects r; LastSubmissionAt := LastSubmissionAt r;
     FailsCount := FailsCount r; Url := Url r; Name := Name r;
     sick := sick r; client := client r; info := v |}.

(** *** The health record *)

(** [func (r *RPCClient) Sick() bool] *)
Definition Sick (r : RPCClient) : bool := sick r.

(** [func (r *RPCClient) markSick()] *)
Definition markSick (r : RPCClient) : RPCClient :=
  let r := if negb (sick r) then set_FailsCount (AddInt64 (FailsCount r) 1) r else r in
  let r := set_sickRate (incr64 (sickRate r)) r in
  let r := set_successRate 0 r in
  if 5 <=? sickRate r then set_sick true r else r.

(** [func (r *RPCClient) markAlive()] *)
Definition markAlive (r : RPCClient) : RPCClient :=
  let r := set_successRate (incr64 (successRate r)) r in
  if 5 <=? successRate r then
    let r := set_sick false r in
    let r := set_sickRate 0 r in
    set_successRate 0 r
  else r.

(** *** The transport layer *)

(** [func (r *RPCClient) doPost(url, method string, params interface{})] *)
Definition doPost (url method : string) (params : any)
  : M RPCClient (option JSONRpcResp * option error) :=
  let jsonReq :=
    Map (<["jsonrpc" := Str "2.0"]> (<["id" := Int 0]>
         (<["method" := Str method]> (<["params" := params]> ∅)))) in
  let data := fst (json_Marshal L jsonReq) in
  let req := fst (http_NewRequest L "POST" url data) in
  let* req := deref req in
  let req := http.Header_Set "Content-Length"
               (string_of_int L (Z.of_nat (length data))) req in
  let req := http.Header_Set "Content-Type" "application/json" req in
  let req := http.Header_Set "Accept" "application/json" req in
  let* r := get in
  let* c := deref (client r) in
  let (resp, err) := http_Do L c req in
  match err with
  | Some e => let* _ := modify markSick in ret (None, Some e)
  | None =>
      let* resp := deref resp in
      if (http.StatusCode resp <? 200) || (400 <=? http.StatusCode resp) then
        ret (None, Some (errors.New (http.Status resp)))
      else
        let (rpcResp, err) := json_Decode L (http.Body resp) in
        match err with
        | Some e => let* _ := modify markSick in ret (None, Some e)
        | None =>
            let* env := deref rpcResp in
            match Error env with
            | Some m =>
                let* _ := modify markSick in
                let* msg := type_assert_string (m !! "message") in
                ret (None, Some (errors.New msg))
            | None => ret (rpcResp, err)
            end
        end
  end.

(** *** The typed calls *)

(** [func (r *RPCClient) GetBlockTemplate(reserveSize int, address string)] *)
Definition GetBlockTemplate (reserveSize : Z) (address : string)
  : M RPCClient (option GetBlockTemplateReply.t * option error) :=
  let params :=
    Map (<["reserve_size" := Int reserveSize]> (<["wallet_address" := Str address]> ∅)) in
  let* r := get in
  let* u := deref (Url r) in
  let* res := doPost (URL_String L u) "getblocktemplate" params in
  let (rpcResp, err) := res in
  let reply : option GetBlockTemplateReply.t := None in
  match err with
  | Some e => ret (None, Some e)
  | None =>
      let* env := deref rpcResp in
      match Result env with
      | Some raw => ret (Unmarshal_GetBlockTemplateReply L raw)
      | None => ret (reply, err)
      end
  end.

(** [func (r *RPCClient) GetInfo()] *)
Definition GetInfo : M RPCClient (option GetInfoReply.t * option error) :=
  let params := Map ∅ in
  let* r := get in
  let* u := deref (Url r) in
  let* res := doPost (URL_String L u) "get_info" params in
  let (rpcResp, err) := res in
  let reply : option GetInfoReply.t := None in
  match err with
  | Some e => ret (None, Some e)
  | None =>
      let* env := deref rpcResp in
      match Result env with
      | Some raw => ret (Unmarshal_GetInfoReply L raw)
      | None => ret (reply, err)
      end
  end.

(** [func (r *RPCClient) GetBlockCount()] *)
Definition GetBlockCount : M RPCClient (option GetBlockCountReply.t * option error) :=
  let params := Map ∅ in
  let* r := get in
  let* u := deref (Url r) in
  let* res := doPost (URL_String L u) "getblockcount" params in
  let (rpcResp, err) := res in
  let reply : option GetBlockCountReply.t := None in
  match err with
  | Some e => ret (None, Some e)
  | None =>
      let* env := deref rpcResp in
      match Result env with
      | Some raw => ret (Unmarshal_GetBlockCountReply L raw)
      | None => ret (reply, err)
      end
  end.

(** [func (r *RPCClient) SubmitBlock(hash string)] *)
Definition SubmitBlock (hash : string)
  : M RPCClient (option JSONRpcResp * option error) :=
  let* r := get in
  let* u := deref (Url r) in
  doPost (URL_String L u) "submitblock" (Strs [hash]).

(** [func (r *RPCClient) GetBlockHeaderByHeight(height int64)] *)
Definition GetBlockHeaderByHeight (height : Z)
  : M RPCClient (option GetBlockHeaderReply.t * option error) :=
  let params := Map (<["height" := Int height]> ∅) in
  let* r := get in
  let* u := deref (Url r) in
  let* res := doPost (URL_String L u) "getblockheaderbyheight" params in
  let (rpcResp, err) := res in
  let reply : option GetBlockHeaderReply.t := None in
  match err with
  | Some e => ret (None, Some e)
  | None =>
      let* env := deref rpcResp in
      match Result env with
      | Some raw => ret (Unmarshal_GetBlockHeaderReply L raw)
      | None => ret (reply, err)
      end
  end.

(** *** The liveness check *)

(** [func (r *RPCClient) Check(reserveSize int, address string) (bool, error)] *)
Definition Check (reserveSize : Z) (address : string)
  : M RPCClient (bool * option error) :=
  let* res := GetBlockTemplate reserveSize address in
  match snd res with
  | Some e => ret (false, Some e)
  | None =>
      let* _ := modify markAlive in
      let* r := get in
      ret (negb (Sick r), None)
  end.

(** *** The info cache *)

(** [func (r *RPCClient) UpdateInfo()] *)
Definition UpdateInfo : M RPCClient (option GetInfoReply.t * option error) :=
  let* res := GetInfo in
  let (info, err) := res in
  let* _ := match err with
            | None => modify (set_info (Some info))
            | Some _ => ret tt
            end in
  ret (info, err).

(** [func (r *RPCClient) Info()]: the two-result type assertion yields the
    nil pointer when nothing was stored. *)
Definition Info (r : RPCClient) : option GetInfoReply.t :=
  match info r with
  | Some reply => reply
  | None => None
  end.

(** *** Construction *)

(** [func (r *RPCClient) SetClient(client *http.Client)] *)
Definition SetClient (c : option http.Client) (r : RPCClient) : RPCClient :=
  set_client c r.

(** [func NewRPCClient(cfg *pool.Upstream)], returning a client and an error *)
Definition NewRPCClient (cfg : option (pool.Upstream (Port L)))
  : outcome (option RPCClient * option error) :=
  match cfg with
  | None => Panic nil_dereference
  | Some cfg =>
      let rawUrl :=
        "http://" +:+ pool.Host cfg +:+ ":" +:+ fmt_v L (pool.Port_ cfg) +:+ "/json_rpc" in
      let (url, err) := url_Parse L rawUrl in
      match err with
      | Some e => Return (None, Some e)
      | None =>
          let rpcClient :=
            {| sickRate := 0; successRate := 0; Accepts := 0; Rejects := 0;
               LastSubmissionAt := 0; FailsCount := 0; Url := url;
               Name := pool.Name cfg; sick := false; client := None;
               info := None |} in
          let timeout := fst (time_ParseDuration L (pool.Timeout cfg)) in
          let rpcClient := SetClient (Some {| http.Timeout := timeout |}) rpcClient in
          Return (Some rpcClient, None)
      end
  end.

End Client.

Arguments sickRate {L} r.
Arguments successRate {L} r.
Arguments Accepts {L} r.
Arguments Rejects {L} r.
Arguments LastSubmissionAt {L} r.
Arguments FailsCount {L} r.
Arguments Url {L} r.
Arguments Name {L} r.
Arguments sick {L} r.
Arguments client {L} r.
Arguments info {L} r.
Arguments set_sickRate {L} v r.
Arguments set_successRate {L} v r.
Arguments set_FailsCount {L} v r.
Arguments set_sick {L} v r.
Arguments set_client {L} v r.
Arguments set_info {L} v r.
Arguments Sick {L} r.
Arguments markSick {L} r.
Arguments markAlive {L} r.
Arguments Info {L} r.
Arguments SetClient {L} c r.

(** ** Histories of the health record *)

(** What the health record is told: a failure ([markSick]) or a success
    ([markAlive]). *)
Inductive event : Type := Failure | Success.

Definition step {L : Lib} (r : RPCClient L) (e : event) : RPCClient L :=
  match e with
  | Failure => markSick r
  | Success => markAlive r
  end.

Definition run {L : Lib} (es : list event) (r : RPCClient L) : RPCClient L :=
  fold_left step es r.

(** The health record of a fresh client: Alive, both streaks zero. *)
Definition initial {L : Lib} (r : RPCClient L) : Prop :=
  sick r = false /\ sickRate r = 0 /\ successRate r = 0.

Inductive reachable {L : Lib} : RPCClient L -> Prop :=
| reach_initial (r : RPCClient L) : initial r -> reachable r
| reach_markSick (r : RPCClient L) : reachable r -> reachable (markSick r)
| reach_markAlive (r : RPCClient L) : reachable r -> reachable (markAlive r).

(** ** Auxiliary views of the source *)

(** The request [doPost] hands to the HTTP client: [None] when
    [http.NewRequest] returned the nil request. *)
Definition newRequest (L : Lib) (url method : string) (params : any)
  : option http.Request :=
  let jsonReq :=
    Map (<["jsonrpc" := Str "2.0"]> (<["id" := Int 0]>
         (<["method" := Str method]> (<["params" := params]> ∅)))) in
  let data := fst (json_Marshal L jsonReq) in
  match fst (http_NewRequest L "POST" url data) with
  | None => None
  | Some req =>
      Some (http.Header_Set "Accept" "application/json"
             (http.Header_Set "Content-Type" "application/json"
               (http.Header_Set "Content-Length"
                 (string_of_int L (Z.of_nat (length data))) req)))
  end.

(** The URL string [NewRPCClient] parses. *)
Definition rawUrl {L : Lib} (cfg : pool.Upstream (Port L)) : string :=
  "http://" +:+ pool.Host cfg +:+ ":" +:+ fmt_v L (pool.Port_ cfg) +:+ "/json_rpc".

(** The parameters the typed calls send. *)
Definition params_GetBlockTemplate (reserveSize : Z) (address : string) : any :=
  Map (<["reserve_size" := Int reserveSize]> (<["wallet_address" := Str address]> ∅)).

Definition params_GetBlockHeaderByHeight (height : Z) : any :=
  Map (<["height" := Int height]> ∅).

(** The shape the four decoding calls share: post, then decode the raw
    result, if there is one, into the reply type. *)
Definition typedCall (L : Lib) {T : Type}
    (unmarshal : RawMessage -> option T * option error)
    (method : string) (params : any)
  : M (RPCClient L) (option T * option error) :=
  let* r := get in
  let* u := deref (Url r) in
  let* res := doPost L (URL_String L u) method params in
  match snd res with
  | Some e => ret (None, Some e)
  | None =>
      let* env := deref (fst res) in
      match Result env with
      | Some raw => ret (unmarshal raw)
      | None => ret (None, None)
      end
  end.

(** What a call may do to the client: nothing, or one failure notification;
    and nothing at all when it returns without an error. *)
Definition notifies_failures_only {L : Lib} {A : Type}
    (call : M (RPCClient L) (A * option error)) : Prop :=
  forall r : RPCClient L,
    (snd (call r) = r \/ snd (call r) = markSick r) /\
    (forall (x : A) (r' : RPCClient L), call r = (Return (x, None), r') -> r' = r).

(** A status the transport accepts: inside [200, 400). *)
Definition status_ok (resp : http.Response) : Prop :=
  200 <= http.StatusCode resp < 400.

(** ** Readings of the health record that the code does not satisfy *)

(** Recovery after five successes counted from any Sick state whatever,
    whatever success streak is already under way. *)
Definition recovery_from_every_sick_state (L : Lib) : Prop :=
  forall r : RPCClient L,
    reachable r -> Sick r = true ->
    (forall n : nat, (n < 5)%nat -> Sick (Nat.iter n markAlive r) = true) /\
    Sick (Nat.iter 5 markAlive r) = false /\
    sickRate (Nat.iter 5 markAlive r) = 0 /\
    successRate (Nat.iter 5 markAlive r) = 0.

(** At most one of the two streak counters is non-zero. *)
Definition one_streak_at_a_time {L : Lib} (r : RPCClient L) : Prop :=
  sickRate r = 0 \/ successRate r = 0.

Definition streaks_exclusive (L : Lib) : Prop :=
  forall r : RPCClient L, reachable r -> one_streak_at_a_time r.

(** A run of consecutive failures that starts when the client is not Sick
    adds at most one to [FailsCount]. *)
Definition once_per_streak (L : Lib) : Prop :=
  forall (r : RPCClient L) (n : nat),
    reachable r -> Sick r = false ->
    FailsCount (Nat.iter n markSick r) - FailsCount r <= 1.

(** Every non-nil application error object ends [doPost] with one failure
    notification and a returned error. *)
Definition app_error_always_returned (L : Lib) : Prop :=
  forall (r : RPCClient L) (url method : string) (params : any)
         (req : http.Request) (c : http.Client) (resp : http.Response)
         (env : JSONRpcResp) (m : gmap string any),
    newRequest L url method params = Some req ->
    client r = Some c ->
    http_Do L c req = (Some resp, None) ->
    status_ok resp ->
    json_Decode L (http.Body resp) = (Some env, None) ->
    Error env = Some m ->
    exists e : error,
      doPost L url method params r = (Return (None, Some e), markSick r).

(** ** A scripted standard library

    A daemon that gives one and the same answer to every request, to run the
    client on concrete inputs. *)
Module Scripted.

Definition lib (answer : option http.Response * option error)
               (decoded : option JSONRpcResp * option error) : Lib :=
  {| URL := string;
     url_Parse := fun s =>
       if String.prefix "http://[" s
       then (None, Some (errors.New "missing ']' in host"))
       else (Some s, None);
     URL_String := fun u => u;
     Port := Z;
     fmt_v := pretty;
     time_ParseDuration := fun s =>
       if decide (s = "10s") then (10000000000, None)
       else (0, Some (errors.New "time: invalid duration"));
     json_Marshal := fun _ => ([], None);
     string_of_int := fun _ => "";
     http_NewRequest := fun method url body =>
       (Some {| http.Method := method; http.URL := url;
                http.Header := ∅; http.ReqBody := body |}, None);
     http_Do := fun _ _ => answer;
     json_Decode := fun _ => decoded;
     Unmarshal_GetBlockTemplateReply := fun _ =>
       (Some (GetBlockTemplateReply.mk 1000 100 "0707" 130 "ab" 600), None);
     Unmarshal_GetInfoReply := fun _ =>
       (Some (GetInfoReply.mk 8 12 100 3 "OK"), None);
     Unmarshal_GetBlockCountReply := fun _ =>
       (Some (GetBlockCountReply.mk 100 "OK"), None);
     Unmarshal_GetBlockHeaderReply := fun _ =>
       (None, Some (errors.New "unexpected end of JSON input")) |}.

Definition response (code : Z) (status : string) : http.Response :=
  {| http.Status := status; http.StatusCode := code; http.Body := [] |}.

Definition ok : option http.Response * option error :=
  (Some (response 200 "200 OK"), None).

Definition refused : option http.Response * option error :=
  (None, Some (errors.New "connection refused")).

Definition busy : option http.Response * option error :=
  (Some (response 500 "500 Internal Server Error"), None).

Definition envelope (result : option RawMessage) (err : option (gmap string any))
  : option JSONRpcResp * option error :=
  (Some {| Id := Some []; Result := result; Error := err |}, None).

Definition garbled : option JSONRpcResp * option error :=
  (None, Some (errors.New "invalid character 'x' looking for beginning of value")).

Definition invalid_params : gmap string any :=
  <["code" := Int (-1)]> (<["message" := Str "Invalid params"]> ∅).

Definition no_message : gmap string any := <["code" := Int (-1)]> ∅.

(** A client as [NewRPCClient] leaves it. *)
Definition fresh (L : Lib) (u : URL L) : RPCClient L :=
  {| sickRate := 0; successRate := 0; Accepts := 0; Rejects := 0;
     LastSubmissionAt := 0; FailsCount := 0; Url := Some u;
     Name := "main"; sick := false;
     client := Some {| http.Timeout := 10000000000 |}; info := None |}.

Definition daemon : string := "http://127.0.0.1:18081/json_rpc".

(** The client of a daemon whose every answer is well-formed and empty. *)
Definition quiet : Lib := lib ok (envelope None None).

(** Daemons that refuse the connection, answer 500, answer with a body that
    is not JSON, report an application error with and without a message, or
    serve a result. *)
Definition down : Lib := lib refused garbled.
Definition overloaded : Lib := lib busy (envelope None None).
Definition noisy : Lib := lib ok garbled.
Definition rejecting : Lib := lib ok (envelope None (Some invalid_params)).
Definition malformed : Lib := lib ok (envelope None (Some no_message)).
Definition serving : Lib := lib ok (envelope (Some ["{"%byte; "}"%byte]) None).

(** A fresh client of the quiet daemon, and the same client after five
    failures in a row. *)
Definition alive : RPCClient quiet := fresh quiet daemon.
Definition sickened : RPCClient quiet := Nat.iter 5 markSick alive.

Definition upstream (timeout : string) : pool.Upstream Z :=
  {| pool.Name := "main"; pool.Host := "127.0.0.1"; pool.Port_ := 18081;
     pool.Timeout := timeout |}.

End Scripted.

(** ** Measures of a history *)

(** The number of failures a history notifies. *)
Fixpoint count_failures (es : list event) : nat :=
  match es with
  | [] => 0%nat
  | Failure :: es => S (count_failures es)
  | Success :: es => count_failures es
  end.

(** No run of five successes in a row, given that [k] successes in a row
    precede the history. *)
Fixpoint successes_stay_below (k : nat) (es : list event) : bool :=
  match es with
  | [] => true
  | Failure :: es => successes_stay_below 0 es
  | Success :: es => (S k <? 5)%nat && successes_stay_below (S k) es
  end.

(** The fields no method of the source assigns after construction, apart
    from [SetClient]: where the client points, what it is called, the HTTP
    client it uses, and the submission counters. *)
Definition same_identity {L : Lib} (r r' : RPCClient L) : Prop :=
  Url r' = Url r /\ Name r' = Name r /\ client r' = client r /\
  Accepts r' = Accepts r /\ Rejects r' = Rejects r /\
  LastSubmissionAt r' = LastSubmissionAt r.

(** The client after a liveness check, whatever the check answered. *)
Definition probed (L : Lib) (reserveSize : Z) (address : string)
    (r : RPCClient L) : RPCClient L :=
  snd (Check L reserveSize address r).

(** A daemon that serves a result which does not decode into any reply. *)
Module Truncated.
Definition unexpected_end : error := errors.New "unexpected end of JSON input".

Definition lib : Lib :=
  {| URL := string;
     url_Parse := fun s => (Some s, None);
     URL_String := fun u => u;
     Port := Z;
     fmt_v := pretty;
     time_ParseDuration := fun _ => (0, None);
     json_Marshal := fun _ => ([], None);
     string_of_int := fun _ => "";
     http_NewRequest := fun method url body =>
       (Some {| http.Method := method; http.URL := url;
                http.Header := <["Content-Type" := ["text/plain"]]> ∅;
                http.ReqBody := body |}, None);
     http_Do := fun _ _ => Scripted.ok;
     json_Decode := fun _ => Scripted.envelope (Some ["{"%byte]) None;
     Unmarshal_GetBlockTemplateReply := fun _ => (None, Some unexpected_end);
     Unmarshal_GetInfoReply := fun _ => (None, Some unexpected_end);
     Unmarshal_GetBlockCountReply := fun _ => (None, Some unexpected_end);
     Unmarshal_GetBlockHeaderReply := fun _ => (None, Some unexpected_end) |}.

Definition fresh : RPCClient lib := Scripted.fresh lib Scripted.daemon.
End Truncated.

(** A client of the quiet daemon that already holds a snapshot. *)
Definition informed : RPCClient Scripted.quiet :=
  set_info (Some (Some (GetInfoReply.mk 8 12 100 3 "OK"))) Scripted.alive.

(** The JSON-RPC 2.0 request object [doPost] serialises. *)
Definition jsonReq (method : string) (params : any) : any :=
  Map (<["jsonrpc" := Str "2.0"]> (<["id" := Int 0]>
       (<["method" := Str method]> (<["params" := params]> ∅)))).

(** * Properties *)

(** ** Machine integers *)

Lemma wrap64_range (z : Z) : int64_range (wrap64 z).
Proof.
  unfold int64_range, wrap64.
  pose proof (Z.mod_pos_bound (z + 2 ^ 63) (2 ^ 64) ltac:(lia)). lia.
Qed.

Lemma wrap64_small (z : Z) : int64_range z -> wrap64 z = z.
Proof.
  unfold int64_range, wrap64. intros Hz.
  rewrite Z.mod_small by lia. lia.
Qed.

Lemma incr64_small (z : Z) : 0 <= z < 5 -> incr64 z = z + 1.
Proof.
  intros Hz. unfold incr64. apply wrap64_small. unfold int64_range. lia.
Qed.

(** Incrementing an [int64] never gives the same number back. *)
Lemma incr64_moves (z : Z) : incr64 z <> z.
Proof.
  unfold incr64, wrap64. intros H.
  pose proof (Z.div_mod (z + 1 + 2 ^ 63) (2 ^ 64) ltac:(lia)) as Hdiv.
  lia.
Qed.

(** ** The health record, field by field *)

(** Both transitions are a case analysis on the flag and on one comparison;
    on an explicit record every field of the result can be read off. *)
Ltac field_of_markSick r :=
  destruct r as [kr sr ? ? ? ? ? ? [|] ? ?];
  unfold markSick; cbn -[incr64 AddInt64 Z.leb];
  destruct (5 <=? incr64 kr); reflexivity.

Ltac field_of_markAlive r :=
  destruct r as [kr sr ? ? ? ? ? ? ? ? ?];
  unfold markAlive; cbn -[incr64 AddInt64 Z.leb];
  destruct (5 <=? incr64 sr); reflexivity.

Section Health.

Context {L : Lib}.
Implicit Types r : RPCClient L.

Lemma sickRate_markSick r : sickRate (markSick r) = incr64 (sickRate r).
Proof.
  field_of_markSick r.
Qed.

Lemma successRate_markSick r : successRate (markSick r) = 0.
Proof.
  field_of_markSick r.
Qed.

Lemma sick_markSick r :
  sick (markSick r) = sick r || (5 <=? incr64 (sickRate r)).
Proof.
  field_of_markSick r.
Qed.

Lemma FailsCount_markSick r :
  FailsCount (markSick r) =
  if sick r then FailsCount r else AddInt64 (FailsCount r) 1.
Proof.
  field_of_markSick r.
Qed.

Lemma info_markSick r : info (markSick r) = info r.
Proof.
  field_of_markSick r.
Qed.

Lemma successRate_markAlive r :
  successRate (markAlive r) =
  if 5 <=? incr64 (successRate r) then 0 else incr64 (successRate r).
Proof.
  field_of_markAlive r.
Qed.

Lemma sickRate_markAlive r :
  sickRate (markAlive r) =
  if 5 <=? incr64 (successRate r) then 0 else sickRate r.
Proof.
  field_of_markAlive r.
Qed.

Lemma sick_markAlive r :
  sick (markAlive r) =
  if 5 <=? incr64 (successRate r) then false else sick r.
Proof.
  field_of_markAlive r.
Qed.

Lemma FailsCount_markAlive r : FailsCount (markAlive r) = FailsCount r.
Proof.
  field_of_markAlive r.
Qed.

(** Either notification leaves a trace: a state that equals [markSick r] has
    been notified of a failure, and is not [r]. *)
Lemma markSick_moves r : markSick r <> r.
Proof.
  intros H. apply (incr64_moves (sickRate r)).
  rewrite <- sickRate_markSick, H. reflexivity.
Qed.

Lemma markAlive_moves r : markAlive r <> r.
Proof.
  intros H. pose proof (successRate_markAlive r) as Hs. rewrite H in Hs.
  destruct (Z.leb_spec 5 (incr64 (successRate r))) as [Hle | Hlt].
  - rewrite Hs in Hle. vm_compute in Hle. apply Hle. reflexivity.
  - apply (incr64_moves (successRate r)). symmetry. exact Hs.
Qed.

(** A success that does not complete a run of five only counts itself. *)
Lemma markAlive_below r :
  0 <= successRate r < 4 ->
  successRate (markAlive r) = successRate r + 1 /\
  sickRate (markAlive r) = sickRate r /\
  sick (markAlive r) = sick r.
Proof.
  intros Hs.
  rewrite successRate_markAlive, sickRate_markAlive, sick_markAlive.
  rewrite incr64_small by lia.
  destruct (Z.leb_spec 5 (successRate r + 1)); [lia | auto].
Qed.

(** The fifth success in a row clears the record. *)
Lemma markAlive_fifth r :
  successRate r = 4 ->
  successRate (markAlive r) = 0 /\
  sickRate (markAlive r) = 0 /\
  sick (markAlive r) = false.
Proof.
  intros Hs.
  rewrite successRate_markAlive, sickRate_markAlive, sick_markAlive, Hs.
  auto.
Qed.

(** A failure below the threshold. *)
Lemma markSick_below r :
  0 <= sickRate r < 4 ->
  sickRate (markSick r) = sickRate r + 1 /\ sick (markSick r) = sick r.
Proof.
  intros Hs. rewrite sickRate_markSick, sick_markSick.
  rewrite incr64_small by lia.
  destruct (Z.leb_spec 5 (sickRate r + 1)); [lia |].
  rewrite orb_false_r. auto.
Qed.

(** The failure that reaches the threshold. *)
Lemma markSick_fifth r :
  sickRate r = 4 -> sickRate (markSick r) = 5 /\ sick (markSick r) = true.
Proof.
  intros Hs. rewrite sickRate_markSick, sick_markSick, Hs.
  split; [reflexivity | apply orb_true_r].
Qed.

(** [n] failures in a row, as long as the streak stays within the threshold. *)
Lemma failures_in_a_row r (n : nat) :
  sick r = false -> 0 <= sickRate r < 5 -> sickRate r + Z.of_nat n <= 5 ->
  sickRate (Nat.iter n markSick r) = sickRate r + Z.of_nat n /\
  sick (Nat.iter n markSick r) = (5 <=? sickRate r + Z.of_nat n).
Proof.
  intros Hsick Hlo. induction n as [|n IH]; intros Hhi.
  - cbn [Nat.iter nat_rect]. rewrite Z.add_0_r, Hsick. split; [reflexivity |].
    symmetry. apply Z.leb_gt. lia.
  - rewrite !Nat.iter_succ. destruct IH as [IHr IHs]; [lia |].
    assert (Hlt : sickRate r + Z.of_nat n < 5) by lia.
    destruct (Z.eq_dec (sickRate r + Z.of_nat n) 4) as [H4|H4].
    + destruct (markSick_fifth (Nat.iter n markSick r)) as [-> ->]; [lia |].
      split; [lia |]. symmetry. apply Z.leb_le. lia.
    + destruct (markSick_below (Nat.iter n markSick r)) as [-> ->]; [lia |].
      rewrite IHr, IHs. split; [lia |].
      transitivity false; [| symmetry]; apply Z.leb_gt; lia.
Qed.

(** [n] successes in a row, short of the fifth. *)
Lemma successes_in_a_row r (n : nat) :
  0 <= successRate r -> successRate r + Z.of_nat n < 5 ->
  successRate (Nat.iter n markAlive r) = successRate r + Z.of_nat n /\
  sickRate (Nat.iter n markAlive r) = sickRate r /\
  sick (Nat.iter n markAlive r) = sick r.
Proof.
  intros Hlo. induction n as [|n IH]; intros Hhi.
  - cbn [Nat.iter nat_rect]. rewrite Z.add_0_r. auto.
  - rewrite !Nat.iter_succ. destruct IH as (IHs & IHr & IHk); [lia |].
    destruct (markAlive_below (Nat.iter n markAlive r)) as (-> & -> & ->); [lia |].
    rewrite IHs, IHr, IHk. repeat split; lia.
Qed.

End Health.

(** ** Histories: what holds in every reachable state *)

Section Reachable.

Context {L : Lib}.
Implicit Types r : RPCClient L.

(** Reachable states keep the success streak below the threshold, and the
    failure streak below it for as long as the client is not Sick. *)
Lemma reachable_bounds r :
  reachable r ->
  0 <= successRate r < 5 /\
  int64_range (sickRate r) /\
  (sick r = false -> 0 <= sickRate r < 5).
Proof.
  induction 1 as [r (Hk & Hr & Hs) | r _ (IHs & IHr & IHk) | r _ (IHs & IHr & IHk)].
  - rewrite Hr, Hs. unfold int64_range. repeat split; lia.
  - rewrite successRate_markSick, sickRate_markSick, sick_markSick.
    split; [lia |]. split; [apply wrap64_range |].
    intros Hor. apply orb_false_iff in Hor as [Hk Hlt].
    apply Z.leb_gt in Hlt. specialize (IHk Hk).
    rewrite incr64_small in * by lia. lia.
  - rewrite successRate_markAlive, sickRate_markAlive, sick_markAlive.
    rewrite incr64_small by lia.
    destruct (Z.leb_spec 5 (successRate r + 1)).
    + unfold int64_range. repeat split; lia.
    + repeat split; try lia; try apply IHr; apply IHk; assumption.
Qed.

(** The lifetime failure counter over a run of failures that starts while
    the client is not Sick: one increment per failure until the client turns
    Sick, none afterwards. *)
Lemma FailsCount_failures r (n : nat) :
  sick r = false -> 0 <= sickRate r < 5 ->
  FailsCount (Nat.iter n markSick r) =
    Nat.iter (Nat.min n (Z.to_nat (5 - sickRate r)))
             (fun c => AddInt64 c 1) (FailsCount r) /\
  ((Z.to_nat (5 - sickRate r) <= n)%nat -> sick (Nat.iter n markSick r) = true).
Proof.
  intros Hk Hr. induction n as [|n [IHc IHs]].
  - split; [reflexivity | lia].
  - rewrite !Nat.iter_succ, FailsCount_markSick, sick_markSick.
    destruct (Nat.lt_ge_cases n (Z.to_nat (5 - sickRate r))) as [Hlt | Hge].
    + destruct (failures_in_a_row r n Hk Hr) as [Hrate Hflag]; [lia |].
      assert (Hflag' : sick (Nat.iter n markSick r) = false).
      { rewrite Hflag. apply Z.leb_gt. lia. }
      rewrite Hflag', IHc.
      rewrite (Nat.min_l n) by lia. rewrite (Nat.min_l (S n)) by lia.
      split; [reflexivity |].
      intros Hle. rewrite Hrate, incr64_small by lia.
      apply Z.leb_le. lia.
    + rewrite (IHs Hge), IHc.
      rewrite (Nat.min_r n) by lia. rewrite (Nat.min_r (S n)) by lia.
      split; [reflexivity | reflexivity].
Qed.

(** C1. From the initial state (Alive, both streak counters zero) the client
    is Sick after exactly five failure notifications in a row: after fewer
    than five, [Sick] still answers false; after the fifth it answers true.
    Transport, decode and application errors all notify through [markSick]. *)
Theorem five_failures_make_sick r :
  initial r ->
  (forall n : nat, (n < 5)%nat -> Sick (Nat.iter n markSick r) = false) /\
  Sick (Nat.iter 5 markSick r) = true.
Proof.
  intros (Hk & Hr & _). unfold Sick. split.
  - intros n Hn.
    destruct (failures_in_a_row r n Hk) as [_ ->]; [lia | lia |].
    apply Z.leb_gt. lia.
  - destruct (failures_in_a_row r 5 Hk) as [_ ->]; [lia | lia |].
    rewrite Hr. reflexivity.
Qed.

(** C2, amended. From a Sick state whose success streak is zero (no success
    since the last failure) the client is Alive again after exactly five
    success notifications in a row, both streak counters being zero right
    after the fifth; after fewer than five it is still Sick. *)
Theorem five_successes_recover r :
  Sick r = true -> successRate r = 0 ->
  (forall n : nat, (n < 5)%nat -> Sick (Nat.iter n markAlive r) = true) /\
  Sick (Nat.iter 5 markAlive r) = false /\
  sickRate (Nat.iter 5 markAlive r) = 0 /\
  successRate (Nat.iter 5 markAlive r) = 0.
Proof.
  unfold Sick. intros Hk Hs. split.
  - intros n Hn.
    destruct (successes_in_a_row r n) as (_ & _ & ->); [lia | lia | exact Hk].
  - destruct (successes_in_a_row r 4) as (H4 & _ & _); [lia | lia |].
    rewrite !(Nat.iter_succ 4).
    destruct (markAlive_fifth (Nat.iter 4 markAlive r)) as (-> & -> & ->);
      [lia | auto].
Qed.

(** C3, amended. In every reachable state: right after a failure the success
    streak is zero, so at most one counter is non-zero there; a success that
    is not the fifth in a row leaves [sickRate] and the Sick flag as they were
    and only counts itself; the fifth success in a row clears the flag and
    both counters. *)
Theorem streaks_after_each_transition r :
  reachable r ->
  one_streak_at_a_time (markSick r) /\
  (successRate r < 4 ->
     sickRate (markAlive r) = sickRate r /\
     Sick (markAlive r) = Sick r /\
     successRate (markAlive r) = successRate r + 1) /\
  (successRate r = 4 ->
     sickRate (markAlive r) = 0 /\
     successRate (markAlive r) = 0 /\
     Sick (markAlive r) = false).
Proof.
  intros Hreach. destruct (reachable_bounds r Hreach) as (Hs & _ & _).
  unfold Sick, one_streak_at_a_time. split; [| split].
  - right. apply successRate_markSick.
  - intros Hlt. destruct (markAlive_below r) as (-> & -> & ->); [lia | auto].
  - intros H4. destruct (markAlive_fifth r H4) as (-> & -> & ->). auto.
Qed.

(** C4, amended. [FailsCount] grows by one at every failure that finds the
    client not Sick and is left alone by failures while Sick and by
    successes; over a run of [n] failures in a row that starts in a reachable
    not-Sick state with failure streak [k] it is incremented [min n (5 - k)]
    times, once per failure until the client turns Sick. *)
Theorem FailsCount_counts_failures_while_alive r :
  reachable r ->
  FailsCount (markAlive r) = FailsCount r /\
  (Sick r = true -> FailsCount (markSick r) = FailsCount r) /\
  (Sick r = false ->
     FailsCount (markSick r) = AddInt64 (FailsCount r) 1 /\
     forall n : nat,
       FailsCount (Nat.iter n markSick r) =
       Nat.iter (Nat.min n (Z.to_nat (5 - sickRate r)))
                (fun c => AddInt64 c 1) (FailsCount r)).
Proof.
  intros Hreach. destruct (reachable_bounds r Hreach) as (_ & _ & Hr).
  unfold Sick. split; [apply FailsCount_markAlive |]. split.
  - intros Hk. rewrite FailsCount_markSick, Hk. reflexivity.
  - intros Hk. split.
    + rewrite FailsCount_markSick, Hk. reflexivity.
    + intros n. apply FailsCount_failures; auto.
Qed.

End Reachable.

(** ** The transport layer *)

Section Transport.

Context (L : Lib).
Implicit Types r : RPCClient L.

(** [doPost] laid out as the decision tree it walks. *)
Lemma doPost_cases (url method : string) (params : any) r :
  doPost L url method params r =
  match newRequest L url method params with
  | None => (Panic nil_dereference, r)
  | Some req =>
      match client r with
      | None => (Panic nil_dereference, r)
      | Some c =>
          match http_Do L c req with
          | (_, Some e) => (Return (None, Some e), markSick r)
          | (None, None) => (Panic nil_dereference, r)
          | (Some resp, None) =>
              if (http.StatusCode resp <? 200) || (400 <=? http.StatusCode resp)
              then (Return (None, Some (errors.New (http.Status resp))), r)
              else
                match json_Decode L (http.Body resp) with
                | (_, Some e) => (Return (None, Some e), markSick r)
                | (None, None) => (Panic nil_dereference, r)
                | (Some env, None) =>
                    match Error env with
                    | None => (Return (Some env, None), r)
                    | Some m =>
                        match assert_string (m !! "message") with
                        | Some msg =>
                            (Return (None, Some (errors.New msg)), markSick r)
                        | None => (Panic not_a_string, markSick r)
                        end
                    end
                end
          end
      end
  end.
Proof.
  unfold doPost, newRequest, bind, deref, get, modify, ret, panic,
    type_assert_string.
  cbv zeta.
  destruct (fst (http_NewRequest L _ _ _)) as [req|]; [| reflexivity].
  destruct (client r) as [c|]; [| reflexivity].
  destruct (http_Do L c _) as [[resp|] [e|]]; try reflexivity.
  destruct (_ || _); [reflexivity |].
  destruct (json_Decode L _) as [[env|] [e|]]; try reflexivity.
  destruct (Error env) as [m|]; [| reflexivity].
  destruct (assert_string _); reflexivity.
Qed.

(** [doPost] touches the client through [markSick] alone, and not at all
    when it returns a response. *)
Lemma doPost_frame (url method : string) (params : any) :
  notifies_failures_only (doPost L url method params).
Proof.
  intros r. rewrite doPost_cases.
  destruct (newRequest L url method params) as [req|];
    [| split; [auto | discriminate]].
  destruct (client r) as [c|]; [| split; [auto | discriminate]].
  destruct (http_Do L c req) as [[resp|] [e|]];
    try (split; [auto | discriminate]).
  destruct (_ || _); [split; [auto | discriminate] |].
  destruct (json_Decode L _) as [[env|] [e|]];
    try (split; [auto | discriminate]).
  destruct (Error env) as [m|].
  - destruct (assert_string _); split; auto; discriminate.
  - split; [auto |]. intros x r' [= _ <-]. reflexivity.
Qed.

(** A response that [doPost] returns carries no error object. *)
Lemma doPost_returns_envelope (url method : string) (params : any) r
      (x : option JSONRpcResp) (r' : RPCClient L) :
  doPost L url method params r = (Return (x, None), r') ->
  r' = r /\ exists env : JSONRpcResp, x = Some env /\ Error env = None.
Proof.
  rewrite doPost_cases.
  destruct (newRequest L url method params) as [req|]; [| discriminate].
  destruct (client r) as [c|]; [| discriminate].
  destruct (http_Do L c req) as [[resp|] [e|]]; try discriminate.
  destruct (_ || _); [discriminate |].
  destruct (json_Decode L _) as [[env|] [e|]]; try discriminate.
  destruct (Error env) as [m|] eqn:Herr.
  - destruct (assert_string _); discriminate.
  - intros [= <- <-]. split; [reflexivity |]. exists env. auto.
Qed.

(** *** The typed calls through their common shape *)

Ltac by_typedCall r :=
  unfold typedCall, bind, get, deref, ret, panic;
  destruct (Url r) as [u|]; [| reflexivity];
  destruct (doPost L _ _ _ r) as [[[rpcResp [e|]]|msg] r1]; reflexivity.

Lemma GetBlockTemplate_typedCall (reserveSize : Z) (address : string) r :
  GetBlockTemplate L reserveSize address r =
  typedCall L (Unmarshal_GetBlockTemplateReply L) "getblocktemplate"
            (params_GetBlockTemplate reserveSize address) r.
Proof. unfold GetBlockTemplate, params_GetBlockTemplate. by_typedCall r. Qed.

Lemma GetInfo_typedCall r :
  GetInfo L r = typedCall L (Unmarshal_GetInfoReply L) "get_info" (Map ∅) r.
Proof. unfold GetInfo. by_typedCall r. Qed.

Lemma GetBlockCount_typedCall r :
  GetBlockCount L r =
  typedCall L (Unmarshal_GetBlockCountReply L) "getblockcount" (Map ∅) r.
Proof. unfold GetBlockCount. by_typedCall r. Qed.

Lemma GetBlockHeaderByHeight_typedCall (height : Z) r :
  GetBlockHeaderByHeight L height r =
  typedCall L (Unmarshal_GetBlockHeaderReply L) "getblockheaderbyheight"
            (params_GetBlockHeaderByHeight height) r.
Proof.
  unfold GetBlockHeaderByHeight, params_GetBlockHeaderByHeight. by_typedCall r.
Qed.

Lemma typedCall_frame {T : Type}
      (unmarshal : RawMessage -> option T * option error)
      (method : string) (params : any) :
  notifies_failures_only (typedCall L unmarshal method params).
Proof.
  intros r. unfold typedCall, bind, get, deref, ret, panic.
  destruct (Url r) as [u|]; [| split; [auto | discriminate]].
  destruct (doPost_frame (URL_String L u) method params r) as [Hstate Hok].
  destruct (doPost L _ _ _ r) as [[[rpcResp [e|]]|msg] r1]; cbn [fst snd] in *.
  - split; [exact Hstate | discriminate].
  - specialize (Hok rpcResp r1 eq_refl). subst r1.
    destruct rpcResp as [env|]; [| split; [auto | discriminate]].
    destruct (Result env) as [raw|].
    + split; [auto |]. intros x r' [= _ <-]. reflexivity.
    + split; [auto |]. intros x r' [= _ <-]. reflexivity.
  - split; [exact Hstate | discriminate].
Qed.

(** No result in the envelope: a nil reply and a nil error. *)
Lemma typedCall_absent_result {T : Type}
      (unmarshal : RawMessage -> option T * option error)
      (method : string) (params : any) r (u : URL L)
      (env : JSONRpcResp) (r' : RPCClient L) :
  Url r = Some u ->
  doPost L (URL_String L u) method params r = (Return (Some env, None), r') ->
  Result env = None ->
  typedCall L unmarshal method params r = (Return (None, None), r').
Proof.
  intros Hu Hpost Hres. unfold typedCall, bind, get, deref, ret.
  rewrite Hu, Hpost. cbn [fst snd]. rewrite Hres. reflexivity.
Qed.

Lemma SubmitBlock_frame (hash : string) :
  notifies_failures_only (SubmitBlock L hash).
Proof.
  intros r. unfold SubmitBlock, bind, get, deref, ret, panic.
  destruct (Url r) as [u|]; [| split; [auto | discriminate]].
  apply doPost_frame.
Qed.

Lemma notifies_failures_only_ext {A : Type}
      (f g : M (RPCClient L) (A * option error)) :
  (forall r, f r = g r) ->
  notifies_failures_only g -> notifies_failures_only f.
Proof.
  intros Hfg Hg r. rewrite Hfg. destruct (Hg r) as [Hstate Hok].
  split; [exact Hstate |]. intros x r'. apply Hok.
Qed.

Lemma status_ok_accepted (resp : http.Response) :
  status_ok resp ->
  (http.StatusCode resp <? 200) || (400 <=? http.StatusCode resp) = false.
Proof.
  unfold status_ok. intros Hs. apply orb_false_iff.
  split; [apply Z.ltb_ge | apply Z.leb_gt]; lia.
Qed.

Lemma status_rejected (resp : http.Response) :
  http.StatusCode resp < 200 \/ 400 <= http.StatusCode resp ->
  (http.StatusCode resp <? 200) || (400 <=? http.StatusCode resp) = true.
Proof.
  intros Hs. apply orb_true_iff.
  destruct Hs; [left; apply Z.ltb_lt | right; apply Z.leb_le]; lia.
Qed.

(** An application error whose message is a string is returned under that
    message, after one failure notification. *)
Lemma doPost_application_error (url method : string) (params : any) r
      (req : http.Request) (c : http.Client) (resp : http.Response)
      (env : JSONRpcResp) (m : gmap string any) (msg : string) :
  newRequest L url method params = Some req ->
  client r = Some c ->
  http_Do L c req = (Some resp, None) ->
  status_ok resp ->
  json_Decode L (http.Body resp) = (Some env, None) ->
  Error env = Some m ->
  m !! "message" = Some (Str msg) ->
  doPost L url method params r =
  (Return (None, Some (errors.New msg)), markSick r).
Proof.
  intros Hreq Hc Hdo Hst Hdec Herr Hmsg.
  rewrite doPost_cases, Hreq, Hc, Hdo, (status_ok_accepted _ Hst), Hdec, Herr, Hmsg.
  reflexivity.
Qed.

(** C5, amended. In [doPost], a transport error, a decode error and an
    application error object whose ["message"] is a string each end with
    exactly one failure notification and a returned error; an HTTP status
    outside [200, 400) ends with a returned error and the client, health
    record included, exactly as it was. *)
Theorem doPost_failure_notifications (url method : string) (params : any) r
        (req : http.Request) (c : http.Client) :
  newRequest L url method params = Some req ->
  client r = Some c ->
  (forall (resp : option http.Response) (e : error),
     http_Do L c req = (resp, Some e) ->
     doPost L url method params r = (Return (None, Some e), markSick r)) /\
  (forall resp : http.Response,
     http_Do L c req = (Some resp, None) ->
     http.StatusCode resp < 200 \/ 400 <= http.StatusCode resp ->
     doPost L url method params r =
     (Return (None, Some (errors.New (http.Status resp))), r)) /\
  (forall (resp : http.Response) (env : option JSONRpcResp) (e : error),
     http_Do L c req = (Some resp, None) ->
     status_ok resp ->
     json_Decode L (http.Body resp) = (env, Some e) ->
     doPost L url method params r = (Return (None, Some e), markSick r)) /\
  (forall (resp : http.Response) (env : JSONRpcResp) (m : gmap string any)
          (msg : string),
     http_Do L c req = (Some resp, None) ->
     status_ok resp ->
     json_Decode L (http.Body resp) = (Some env, None) ->
     Error env = Some m ->
     m !! "message" = Some (Str msg) ->
     doPost L url method params r =
     (Return (None, Some (errors.New msg)), markSick r)).
Proof.
  intros Hreq Hc. repeat apply conj.
  - intros resp e Hdo. rewrite doPost_cases, Hreq, Hc, Hdo.
    destruct resp; reflexivity.
  - intros resp Hdo Hst.
    rewrite doPost_cases, Hreq, Hc, Hdo, (status_rejected _ Hst). reflexivity.
  - intros resp env e Hdo Hst Hdec.
    rewrite doPost_cases, Hreq, Hc, Hdo, (status_ok_accepted _ Hst), Hdec.
    destruct env; reflexivity.
  - intros resp env m msg Hdo Hst Hdec Herr Hmsg.
    eapply doPost_application_error; eassumption.
Qed.

(** C6. A typed call changes the client by failure notifications at most,
    and leaves it exactly as it was, health record included, when it returns
    without an error; [Check] is the one operation that notifies a success:
    when its probe returns without an error it applies [markAlive] once and
    returns the negation of what [Sick] answers afterwards. *)
Theorem only_Check_marks_alive :
  (forall (reserveSize : Z) (address : string),
     notifies_failures_only (GetBlockTemplate L reserveSize address)) /\
  notifies_failures_only (GetInfo L) /\
  notifies_failures_only (GetBlockCount L) /\
  (forall hash : string, notifies_failures_only (SubmitBlock L hash)) /\
  (forall height : Z, notifies_failures_only (GetBlockHeaderByHeight L height)) /\
  (forall (reserveSize : Z) (address : string) r
          (x : option GetBlockTemplateReply.t) (r' : RPCClient L),
     GetBlockTemplate L reserveSize address r = (Return (x, None), r') ->
     Check L reserveSize address r =
     (Return (negb (Sick (markAlive r)), None), markAlive r)).
Proof.
  repeat apply conj.
  - intros reserveSize address. eapply notifies_failures_only_ext;
      [apply GetBlockTemplate_typedCall | apply typedCall_frame].
  - eapply notifies_failures_only_ext;
      [apply GetInfo_typedCall | apply typedCall_frame].
  - eapply notifies_failures_only_ext;
      [apply GetBlockCount_typedCall | apply typedCall_frame].
  - apply SubmitBlock_frame.
  - intros height. eapply notifies_failures_only_ext;
      [apply GetBlockHeaderByHeight_typedCall | apply typedCall_frame].
  - intros reserveSize address r x r' Hcall.
    assert (Hr : r' = r).
    { rewrite GetBlockTemplate_typedCall in Hcall.
      eapply (typedCall_frame _ _ _ r). exact Hcall. }
    subst r'. unfold Check, bind, modify, get, ret. rewrite Hcall.
    reflexivity.
Qed.

(** C7. In each of the four decoding calls, when the RPC round trip succeeds
    and the envelope has no result, the call returns the nil reply together
    with the nil error. *)
Theorem absent_result_gives_nil_reply r (u : URL L) (env : JSONRpcResp)
        (r' : RPCClient L) :
  Url r = Some u ->
  Result env = None ->
  (forall (reserveSize : Z) (address : string),
     doPost L (URL_String L u) "getblocktemplate"
            (params_GetBlockTemplate reserveSize address) r
       = (Return (Some env, None), r') ->
     GetBlockTemplate L reserveSize address r = (Return (None, None), r')) /\
  (doPost L (URL_String L u) "get_info" (Map ∅) r
     = (Return (Some env, None), r') ->
   GetInfo L r = (Return (None, None), r')) /\
  (doPost L (URL_String L u) "getblockcount" (Map ∅) r
     = (Return (Some env, None), r') ->
   GetBlockCount L r = (Return (None, None), r')) /\
  (forall height : Z,
     doPost L (URL_String L u) "getblockheaderbyheight"
            (params_GetBlockHeaderByHeight height) r
       = (Return (Some env, None), r') ->
     GetBlockHeaderByHeight L height r = (Return (None, None), r')).
Proof.
  intros Hu Hres. repeat apply conj.
  - intros reserveSize address Hpost. rewrite GetBlockTemplate_typedCall.
    eapply typedCall_absent_result; eassumption.
  - intros Hpost. rewrite GetInfo_typedCall.
    eapply typedCall_absent_result; eassumption.
  - intros Hpost. rewrite GetBlockCount_typedCall.
    eapply typedCall_absent_result; eassumption.
  - intros height Hpost. rewrite GetBlockHeaderByHeight_typedCall.
    eapply typedCall_absent_result; eassumption.
Qed.

(** C8. [UpdateInfo] calls [GetInfo]; when that returns an error the error
    is returned and [Info] answers afterwards what it answered before; when
    it returns no error the reply is stored and is what [Info] answers
    afterwards. *)
Theorem UpdateInfo_snapshot r :
  (forall (reply : option GetInfoReply.t) (e : error) (r' : RPCClient L),
     GetInfo L r = (Return (reply, Some e), r') ->
     UpdateInfo L r = (Return (reply, Some e), r') /\ Info r' = Info r) /\
  (forall (reply : option GetInfoReply.t) (r' : RPCClient L),
     GetInfo L r = (Return (reply, None), r') ->
     UpdateInfo L r = (Return (reply, None), set_info (Some reply) r') /\
     Info (set_info (Some reply) r') = reply).
Proof.
  split.
  - intros reply e r' Hcall. split.
    + unfold UpdateInfo, bind, ret. rewrite Hcall. reflexivity.
    + assert (Hstate : r' = r \/ r' = markSick r).
      { pose proof (typedCall_frame (Unmarshal_GetInfoReply L) "get_info" (Map ∅) r)
          as [Hstate _].
        rewrite <- GetInfo_typedCall, Hcall in Hstate. exact Hstate. }
      unfold Info. destruct Hstate as [-> | ->]; [reflexivity |].
      rewrite info_markSick. reflexivity.
  - intros reply r' Hcall. split.
    + unfold UpdateInfo, bind, modify, ret. rewrite Hcall. reflexivity.
    + reflexivity.
Qed.

(** C9. [NewRPCClient] returns an error exactly when [url.Parse] rejects the
    URL built from the descriptor's host and port.  The error of
    [time.ParseDuration] is dropped: whatever duration it yields, zero for a
    malformed string, becomes the timeout of the HTTP client, and the
    construction succeeds. *)
Theorem NewRPCClient_fails_on_url_only (cfg : pool.Upstream (Port L)) :
  ((exists (x : option (RPCClient L)) (e : error),
       NewRPCClient L (Some cfg) = Return (x, Some e)) <->
   (exists e : error, snd (url_Parse L (rawUrl cfg)) = Some e)) /\
  (forall (d : Z) (perr : option error),
     snd (url_Parse L (rawUrl cfg)) = None ->
     time_ParseDuration L (pool.Timeout cfg) = (d, perr) ->
     exists rc : RPCClient L,
       NewRPCClient L (Some cfg) = Return (Some rc, None) /\
       client rc = Some {| http.Timeout := d |}).
Proof.
  unfold NewRPCClient. fold (rawUrl cfg).
  destruct (url_Parse L (rawUrl cfg)) as [u [e|]]; cbn [snd]; split.
  - split; intros _; eauto.
  - discriminate.
  - split.
    + intros (x & e & [=]).
    + intros (e & [=]).
  - intros d perr _ ->. eexists. split; reflexivity.
Qed.

(** C10. When the envelope carries an error object, [doPost] returns an
    error with the object's ["message"] provided that entry is present and a
    string; when the entry is missing or holds anything else, the failure is
    still notified and the type assertion panics: no error is returned. *)
Theorem application_error_message (url method : string) (params : any) r
        (req : http.Request) (c : http.Client) (resp : http.Response)
        (env : JSONRpcResp) (m : gmap string any) :
  newRequest L url method params = Some req ->
  client r = Some c ->
  http_Do L c req = (Some resp, None) ->
  status_ok resp ->
  json_Decode L (http.Body resp) = (Some env, None) ->
  Error env = Some m ->
  (forall msg : string,
     m !! "message" = Some (Str msg) ->
     exists e : error,
       errors.Error e = msg /\
       doPost L url method params r = (Return (None, Some e), markSick r)) /\
  ((forall msg : string, m !! "message" <> Some (Str msg)) ->
   doPost L url method params r = (Panic not_a_string, markSick r)).
Proof.
  intros Hreq Hc Hdo Hst Hdec Herr. split.
  - intros msg Hmsg. exists (errors.New msg). split; [reflexivity |].
    eapply doPost_application_error; eassumption.
  - intros Hnot.
    rewrite doPost_cases, Hreq, Hc, Hdo, (status_ok_accepted _ Hst), Hdec, Herr.
    destruct (m !! "message") as [[| | | |s| | |]|] eqn:Hm; try reflexivity.
    destruct (Hnot s). reflexivity.
Qed.

End Transport.

(** ** The claims on concrete clients *)

Lemma reachable_iter {L : Lib} (f : RPCClient L -> RPCClient L) (n : nat)
      (r : RPCClient L) :
  (forall s, reachable s -> reachable (f s)) ->
  reachable r -> reachable (Nat.iter n f r).
Proof.
  intros Hf Hr. induction n as [|n IH]; [exact Hr |].
  rewrite Nat.iter_succ. apply Hf, IH.
Qed.

Lemma initial_alive : initial Scripted.alive.
Proof. repeat split. Qed.

Lemma reachable_sickened : reachable Scripted.sickened.
Proof.
  apply reachable_iter; [apply @reach_markSick |].
  apply reach_initial, initial_alive.
Qed.

Lemma five_failures_make_sick_witness :
  initial Scripted.alive /\
  (forall n : nat, (n < 5)%nat -> Sick (Nat.iter n markSick Scripted.alive) = false) /\
  Sick (Nat.iter 5 markSick Scripted.alive) = true.
Proof.
  split; [repeat split |].
  apply (five_failures_make_sick Scripted.alive). repeat split.
Defined.

Lemma five_successes_recover_witness :
  Sick Scripted.sickened = true /\
  successRate Scripted.sickened = 0 /\
  (forall n : nat, (n < 5)%nat -> Sick (Nat.iter n markAlive Scripted.sickened) = true) /\
  Sick (Nat.iter 5 markAlive Scripted.sickened) = false /\
  sickRate (Nat.iter 5 markAlive Scripted.sickened) = 0 /\
  successRate (Nat.iter 5 markAlive Scripted.sickened) = 0.
Proof.
  split; [vm_compute; reflexivity |]. split; [vm_compute; reflexivity |].
  apply (five_successes_recover Scripted.sickened); vm_compute; reflexivity.
Defined.

(** C2, as stated, fails: a Sick client that has already seen one success is
    Alive after four more, and after five more its success streak is one. *)
Lemma recovery_from_every_sick_state_fails :
  ~ recovery_from_every_sick_state Scripted.quiet.
Proof.
  intros Hclaim.
  destruct (Hclaim (markAlive Scripted.sickened)) as [Hstill _].
  - apply reach_markAlive, reachable_sickened.
  - vm_compute. reflexivity.
  - specialize (Hstill 4%nat ltac:(lia)). vm_compute in Hstill. discriminate.
Qed.

Lemma streaks_after_each_transition_witness :
  reachable Scripted.sickened /\
  one_streak_at_a_time (markSick Scripted.sickened) /\
  sickRate (markAlive Scripted.sickened) = sickRate Scripted.sickened /\
  Sick (markAlive Scripted.sickened) = Sick Scripted.sickened /\
  successRate (markAlive Scripted.sickened) = successRate Scripted.sickened + 1.
Proof.
  split; [apply reachable_sickened |].
  destruct (streaks_after_each_transition Scripted.sickened reachable_sickened)
    as (Hfail & Hbelow & _).
  split; [exact Hfail |]. apply Hbelow. vm_compute. reflexivity.
Defined.

(** C3, as stated, fails: after one failure and one success both counters
    are one, and the success has not reset [sickRate]. *)
Lemma streaks_not_exclusive :
  ~ streaks_exclusive Scripted.quiet /\
  sickRate (markAlive (markSick Scripted.alive)) = 1 /\
  successRate (markAlive (markSick Scripted.alive)) = 1.
Proof.
  split; [| split; vm_compute; reflexivity].
  intros Hclaim.
  destruct (Hclaim (markAlive (markSick Scripted.alive))) as [H | H].
  - apply reach_markAlive, reach_markSick, reach_initial, initial_alive.
  - vm_compute in H. discriminate.
  - vm_compute in H. discriminate.
Qed.

Lemma FailsCount_counts_failures_while_alive_witness :
  reachable Scripted.alive /\
  Sick Scripted.alive = false /\
  FailsCount (markAlive Scripted.alive) = FailsCount Scripted.alive /\
  FailsCount (markSick Scripted.alive) = 1 /\
  FailsCount (Nat.iter 3 markSick Scripted.alive) = 3 /\
  FailsCount (Nat.iter 8 markSick Scripted.alive) = 5.
Proof.
  assert (Hr : reachable Scripted.alive) by apply reach_initial, initial_alive.
  split; [exact Hr |]. split; [reflexivity |].
  destruct (FailsCount_counts_failures_while_alive Scripted.alive Hr)
    as (Halive & _ & Hsick).
  split; [exact Halive |].
  destruct (Hsick eq_refl) as [Hone Hrun].
  split; [rewrite Hone; vm_compute; reflexivity |].
  split; rewrite Hrun; vm_compute; reflexivity.
Defined.

(** C4, as stated, fails: two failures in a row from the fresh client, one
    streak, add two to [FailsCount]. *)
Lemma once_per_streak_fails : ~ once_per_streak Scripted.quiet.
Proof.
  intros Hclaim.
  specialize (Hclaim Scripted.alive 2%nat
                (reach_initial _ initial_alive) eq_refl).
  vm_compute in Hclaim. apply Hclaim. reflexivity.
Qed.

Lemma doPost_failure_notifications_witness :
  doPost Scripted.down Scripted.daemon "get_info" (Map ∅)
         (Scripted.fresh Scripted.down Scripted.daemon)
    = (Return (None, Some (errors.New "connection refused")),
       markSick (Scripted.fresh Scripted.down Scripted.daemon)) /\
  doPost Scripted.overloaded Scripted.daemon "get_info" (Map ∅)
         (Scripted.fresh Scripted.overloaded Scripted.daemon)
    = (Return (None, Some (errors.New "500 Internal Server Error")),
       Scripted.fresh Scripted.overloaded Scripted.daemon) /\
  doPost Scripted.noisy Scripted.daemon "get_info" (Map ∅)
         (Scripted.fresh Scripted.noisy Scripted.daemon)
    = (Return (None, snd Scripted.garbled),
       markSick (Scripted.fresh Scripted.noisy Scripted.daemon)) /\
  doPost Scripted.rejecting Scripted.daemon "submitblock" (Strs ["0707"])
         (Scripted.fresh Scripted.rejecting Scripted.daemon)
    = (Return (None, Some (errors.New "Invalid params")),
       markSick (Scripted.fresh Scripted.rejecting Scripted.daemon)).
Proof.
  repeat apply conj.
  - destruct (doPost_failure_notifications Scripted.down Scripted.daemon
                "get_info" (Map ∅) (Scripted.fresh Scripted.down Scripted.daemon)
                _ _ eq_refl eq_refl) as (Htransport & _).
    apply (Htransport None). reflexivity.
  - destruct (doPost_failure_notifications Scripted.overloaded Scripted.daemon
                "get_info" (Map ∅)
                (Scripted.fresh Scripted.overloaded Scripted.daemon)
                _ _ eq_refl eq_refl) as (_ & Hstatus & _).
    apply (Hstatus (Scripted.response 500 "500 Internal Server Error"));
      [reflexivity | right; cbn; lia].
  - destruct (doPost_failure_notifications Scripted.noisy Scripted.daemon
                "get_info" (Map ∅) (Scripted.fresh Scripted.noisy Scripted.daemon)
                _ _ eq_refl eq_refl) as (_ & _ & Hdecode & _).
    apply (Hdecode (Scripted.response 200 "200 OK") None);
      [reflexivity | unfold status_ok; cbn; lia | reflexivity].
  - destruct (doPost_failure_notifications Scripted.rejecting Scripted.daemon
                "submitblock" (Strs ["0707"])
                (Scripted.fresh Scripted.rejecting Scripted.daemon)
                _ _ eq_refl eq_refl) as (_ & _ & _ & Happ).
    eapply (Happ (Scripted.response 200 "200 OK"));
      [reflexivity | unfold status_ok; cbn; lia | reflexivity | reflexivity
      | vm_compute; reflexivity].
Defined.

(** C5, as stated, fails: on an error object without a ["message"] the
    failure is notified but no error is returned. *)
Lemma app_error_not_always_returned :
  ~ app_error_always_returned Scripted.malformed.
Proof.
  intros Hclaim.
  edestruct (Hclaim (Scripted.fresh Scripted.malformed Scripted.daemon)
                    Scripted.daemon "submitblock" (Strs ["0707"]))
    as [e He];
    [reflexivity | reflexivity | reflexivity | unfold status_ok; cbn; lia
    | reflexivity | reflexivity |].
  vm_compute in He. discriminate.
Qed.

Lemma only_Check_marks_alive_witness :
  GetBlockTemplate Scripted.serving 8 "4A"
                   (Scripted.fresh Scripted.serving Scripted.daemon)
    = (Return (Some (GetBlockTemplateReply.mk 1000 100 "0707" 130 "ab" 600), None),
       Scripted.fresh Scripted.serving Scripted.daemon) /\
  Check Scripted.serving 8 "4A" (Scripted.fresh Scripted.serving Scripted.daemon)
    = (Return (true, None),
       markAlive (Scripted.fresh Scripted.serving Scripted.daemon)).
Proof.
  split; [vm_compute; reflexivity |].
  destruct (only_Check_marks_alive Scripted.serving) as (_ & _ & _ & _ & _ & Hcheck).
  rewrite (Hcheck 8 "4A" (Scripted.fresh Scripted.serving Scripted.daemon)
                  (Some (GetBlockTemplateReply.mk 1000 100 "0707" 130 "ab" 600))
                  (Scripted.fresh Scripted.serving Scripted.daemon));
    vm_compute; reflexivity.
Defined.

Lemma absent_result_gives_nil_reply_witness :
  Url Scripted.alive = Some Scripted.daemon /\
  GetBlockTemplate Scripted.quiet 8 "4A" Scripted.alive
    = (Return (None, None), Scripted.alive) /\
  GetInfo Scripted.quiet Scripted.alive = (Return (None, None), Scripted.alive) /\
  GetBlockCount Scripted.quiet Scripted.alive
    = (Return (None, None), Scripted.alive) /\
  GetBlockHeaderByHeight Scripted.quiet 100 Scripted.alive
    = (Return (None, None), Scripted.alive).
Proof.
  split; [reflexivity |].
  destruct (absent_result_gives_nil_reply Scripted.quiet Scripted.alive
              Scripted.daemon {| Id := Some []; Result := None; Error := None |}
              Scripted.alive eq_refl eq_refl)
    as (Htemplate & Hinfo & Hcount & Hheader).
  repeat apply conj.
  - apply Htemplate. vm_compute. reflexivity.
  - apply Hinfo. vm_compute. reflexivity.
  - apply Hcount. vm_compute. reflexivity.
  - apply Hheader. vm_compute. reflexivity.
Defined.

Lemma UpdateInfo_snapshot_witness :
  Info (Scripted.fresh Scripted.serving Scripted.daemon) = None /\
  (UpdateInfo Scripted.serving (Scripted.fresh Scripted.serving Scripted.daemon)
     = (Return (Some (GetInfoReply.mk 8 12 100 3 "OK"), None),
        set_info (Some (Some (GetInfoReply.mk 8 12 100 3 "OK")))
                 (Scripted.fresh Scripted.serving Scripted.daemon)) /\
   Info (set_info (Some (Some (GetInfoReply.mk 8 12 100 3 "OK")))
                  (Scripted.fresh Scripted.serving Scripted.daemon))
     = Some (GetInfoReply.mk 8 12 100 3 "OK")) /\
  (UpdateInfo Scripted.down (Scripted.fresh Scripted.down Scripted.daemon)
     = (Return (None, Some (errors.New "connection refused")),
        markSick (Scripted.fresh Scripted.down Scripted.daemon)) /\
   Info (markSick (Scripted.fresh Scripted.down Scripted.daemon))
     = Info (Scripted.fresh Scripted.down Scripted.daemon)).
Proof.
  split; [reflexivity |]. split.
  - apply (UpdateInfo_snapshot Scripted.serving). vm_compute. reflexivity.
  - apply (UpdateInfo_snapshot Scripted.down). vm_compute. reflexivity.
Defined.

Lemma NewRPCClient_fails_on_url_only_witness :
  snd (url_Parse Scripted.quiet (@rawUrl Scripted.quiet (Scripted.upstream "soon")))
    = None /\
  time_ParseDuration Scripted.quiet (pool.Timeout (Scripted.upstream "soon"))
    = (0, Some (errors.New "time: invalid duration")) /\
  exists rc : RPCClient Scripted.quiet,
    NewRPCClient Scripted.quiet (Some (Scripted.upstream "soon"))
      = Return (Some rc, None) /\
    client rc = Some {| http.Timeout := 0 |}.
Proof.
  split; [vm_compute; reflexivity |]. split; [vm_compute; reflexivity |].
  apply (NewRPCClient_fails_on_url_only Scripted.quiet (Scripted.upstream "soon"))
    with (perr := Some (errors.New "time: invalid duration"));
    vm_compute; reflexivity.
Defined.

(** Construction fails on a host that [url.Parse] rejects, whatever the
    timeout string. *)
Example NewRPCClient_rejects_bad_host :
  NewRPCClient Scripted.quiet
    (Some {| pool.Name := "main"; pool.Host := "[::1"; pool.Port_ := 18081;
             pool.Timeout := "10s" |})
  = Return (None, Some (errors.New "missing ']' in host")).
Proof. vm_compute. reflexivity. Qed.

Lemma application_error_message_witness :
  (exists e : error,
     errors.Error e = "Invalid params" /\
     doPost Scripted.rejecting Scripted.daemon "submitblock" (Strs ["0707"])
            (Scripted.fresh Scripted.rejecting Scripted.daemon)
       = (Return (None, Some e),
          markSick (Scripted.fresh Scripted.rejecting Scripted.daemon))) /\
  doPost Scripted.malformed Scripted.daemon "submitblock" (Strs ["0707"])
         (Scripted.fresh Scripted.malformed Scripted.daemon)
    = (Panic not_a_string,
       markSick (Scripted.fresh Scripted.malformed Scripted.daemon)).
Proof.
  split.
  - eapply (application_error_message Scripted.rejecting);
      [reflexivity | reflexivity | reflexivity | unfold status_ok; cbn; lia
      | reflexivity | reflexivity | vm_compute; reflexivity].
  - eapply (application_error_message Scripted.malformed);
      [reflexivity | reflexivity | reflexivity | unfold status_ok; cbn; lia
      | reflexivity | reflexivity | intros msg; vm_compute; discriminate].
Defined.

(** * Further properties *)

(** ** The health record over longer histories *)

Lemma incr64_in_range (z : Z) : 0 <= z -> z + 1 < 2 ^ 63 -> incr64 z = z + 1.
Proof.
  intros Hlo Hhi. unfold incr64. apply wrap64_small. unfold int64_range. lia.
Qed.

Section Histories.

Context {L : Lib}.
Implicit Types r : RPCClient L.

Lemma run_cons (e : event) (es : list event) r :
  run (e :: es) r = run es (step r e).
Proof. reflexivity. Qed.

(** Failures never clear the flag. *)
Lemma sick_failures r (n : nat) :
  sick r = true -> sick (Nat.iter n markSick r) = true.
Proof.
  intros Hk. induction n as [|n IH]; [exact Hk |].
  rewrite Nat.iter_succ, sick_markSick, IH. reflexivity.
Qed.

(** Successes never set the flag, nor revive a failure streak that is zero. *)
Lemma alive_successes r (n : nat) :
  sick r = false -> sickRate r = 0 ->
  sick (Nat.iter n markAlive r) = false /\
  sickRate (Nat.iter n markAlive r) = 0.
Proof.
  intros Hk Hr. induction n as [|n [IHk IHr]]; [auto |].
  rewrite Nat.iter_succ, sick_markAlive, sickRate_markAlive, IHk, IHr.
  destruct (5 <=? _); auto.
Qed.

(** The success that completes the run of five, from a reachable state. *)
Lemma recovery_point r :
  reachable r ->
  let k := Z.to_nat (5 - successRate r) in
  (forall n : nat, (n < k)%nat ->
     sick (Nat.iter n markAlive r) = sick r /\
     sickRate (Nat.iter n markAlive r) = sickRate r) /\
  sick (Nat.iter k markAlive r) = false /\
  sickRate (Nat.iter k markAlive r) = 0 /\
  successRate (Nat.iter k markAlive r) = 0.
Proof.
  intros Hreach k. destruct (reachable_bounds r Hreach) as (Hs & _ & _).
  split.
  - intros n Hn.
    destruct (successes_in_a_row r n) as (_ & Hr & Hk); [lia | lia | auto].
  - assert (Hk : k = S (Z.to_nat (4 - successRate r))) by lia.
    rewrite Hk, !Nat.iter_succ.
    destruct (successes_in_a_row r (Z.to_nat (4 - successRate r)))
      as (Hrate & _ & _); [lia | lia |].
    destruct (markAlive_fifth (Nat.iter (Z.to_nat (4 - successRate r)) markAlive r))
      as (-> & -> & ->); [lia | auto].
Qed.

(** X1. Once the client is Sick, no number of further failure notifications
    clears the flag, also when [sickRate] wraps around; the flag is cleared
    by a success notification only, and then both streak counters are zero.
    A client that is not Sick turns Sick only on a failure that brings
    [sickRate] to five or more. *)
Theorem Sick_changes_only_at_thresholds r :
  (Sick r = true -> forall n : nat, Sick (Nat.iter n markSick r) = true) /\
  (Sick r = true -> Sick (markAlive r) = false ->
     sickRate (markAlive r) = 0 /\ successRate (markAlive r) = 0) /\
  (Sick r = false -> Sick (markSick r) = true -> 5 <= sickRate (markSick r)) /\
  (Sick r = false -> Sick (markAlive r) = false).
Proof.
  unfold Sick. repeat apply conj.
  - intros Hk n. apply sick_failures, Hk.
  - rewrite sick_markAlive, sickRate_markAlive, successRate_markAlive.
    intros Hk. destruct (5 <=? incr64 (successRate r)); [auto | congruence].
  - rewrite sick_markSick, sickRate_markSick. intros ->. cbn [orb].
    intros Hle. apply Z.leb_le, Hle.
  - rewrite sick_markAlive. intros ->. destruct (5 <=? _); reflexivity.
Qed.

(** X2. From any reachable Sick state with success streak [s], the client
    stays Sick through fewer than [5 - s] further successes in a row and is
    Alive, with both streak counters zero, right after the success number
    [5 - s]. *)
Theorem recovery_completes_the_streak r :
  reachable r -> Sick r = true ->
  (forall n : nat, (n < Z.to_nat (5 - successRate r))%nat ->
     Sick (Nat.iter n markAlive r) = true) /\
  Sick (Nat.iter (Z.to_nat (5 - successRate r)) markAlive r) = false /\
  sickRate (Nat.iter (Z.to_nat (5 - successRate r)) markAlive r) = 0 /\
  successRate (Nat.iter (Z.to_nat (5 - successRate r)) markAlive r) = 0.
Proof.
  unfold Sick. intros Hreach Hk.
  destruct (recovery_point r Hreach) as (Hbefore & Hat).
  split; [| exact Hat].
  intros n Hn. destruct (Hbefore n Hn) as [-> _]. exact Hk.
Qed.

(** X3. Five notifications of one kind in a row settle the state of any
    reachable client: after five or more failures in a row it is Sick, after
    five or more successes in a row it is Alive with a failure streak of
    zero. *)
Theorem five_in_a_row_decide r (n : nat) :
  reachable r -> (5 <= n)%nat ->
  Sick (Nat.iter n markSick r) = true /\
  Sick (Nat.iter n markAlive r) = false /\
  sickRate (Nat.iter n markAlive r) = 0.
Proof.
  unfold Sick. intros Hreach Hn.
  destruct (reachable_bounds r Hreach) as (Hs & _ & Hr). split.
  - destruct (sick r) eqn:Hk; [apply sick_failures, Hk |].
    specialize (Hr eq_refl).
    set (m := Z.to_nat (5 - sickRate r)).
    replace n with ((n - m) + m)%nat by lia. rewrite Nat.iter_add.
    apply sick_failures.
    destruct (failures_in_a_row r m Hk Hr) as [_ ->]; [lia |].
    apply Z.leb_le. lia.
  - destruct (recovery_point r Hreach) as (_ & Hk & Hrate & _).
    set (m := Z.to_nat (5 - successRate r)) in *.
    replace n with ((n - m) + m)%nat by lia. rewrite Nat.iter_add.
    apply alive_successes; assumption.
Qed.

(** Failures add up across successes for as long as no five successes in a
    row intervene. *)
Lemma failures_add_up (es : list event) :
  forall r (k : nat),
    successRate r = Z.of_nat k -> (k < 5)%nat ->
    0 <= sickRate r ->
    sick r = (5 <=? sickRate r) ->
    successes_stay_below k es = true ->
    sickRate r + Z.of_nat (count_failures es) < 2 ^ 63 ->
    sickRate (run es r) = sickRate r + Z.of_nat (count_failures es) /\
    sick (run es r) = (5 <=? sickRate (run es r)).
Proof.
  induction es as [|[|] es IH]; intros r k Hs Hk Hlo Hflag Hbelow Hhi.
  - cbn. split; [lia | exact Hflag].
  - rewrite run_cons. cbn [step count_failures successes_stay_below] in *.
    assert (Hrate : sickRate (markSick r) = sickRate r + 1).
    { rewrite sickRate_markSick. apply incr64_in_range; lia. }
    destruct (IH (markSick r) 0%nat) as [IHr IHk]; try assumption.
    + apply successRate_markSick.
    + lia.
    + lia.
    + rewrite sick_markSick, Hflag, <- sickRate_markSick, Hrate.
      destruct (Z.leb_spec 5 (sickRate r)), (Z.leb_spec 5 (sickRate r + 1));
        try reflexivity; lia.
    + lia.
    + split; [lia | exact IHk].
  - rewrite run_cons. cbn [step count_failures successes_stay_below] in *.
    apply andb_true_iff in Hbelow as [Hlt Hbelow].
    apply Nat.ltb_lt in Hlt.
    destruct (markAlive_below r) as (Hs' & Hr' & Hk'); [lia |].
    destruct (IH (markAlive r) (S k)) as [IHr IHk]; try assumption.
    + lia.
    + lia.
    + congruence.
    + lia.
    + split; [lia | exact IHk].
Qed.

(** X4. Failures need not be consecutive to make the client Sick: over a
    history from the initial state in which successes never come five in a
    row, [sickRate] is the total number of failures and the client is Sick
    exactly when that number is five or more. *)
Theorem failures_accumulate_across_successes r (es : list event) :
  initial r ->
  successes_stay_below 0 es = true ->
  Z.of_nat (count_failures es) < 2 ^ 63 ->
  sickRate (run es r) = Z.of_nat (count_failures es) /\
  Sick (run es r) = (5 <=? Z.of_nat (count_failures es)).
Proof.
  intros (Hk & Hr & Hs) Hbelow Hhi. unfold Sick.
  destruct (failures_add_up es r 0%nat) as [Hrate Hflag];
    try assumption; try lia.
  - rewrite Hk, Hr. reflexivity.
  - rewrite Hflag, Hrate, Hr. split; reflexivity.
Qed.

(** X5. Over any history the lifetime failure counter never goes down and
    never grows by more than the number of failures notified, as long as it
    stays within [int64]. *)
Theorem FailsCount_bounded_by_failures r (es : list event) :
  int64_range (FailsCount r) ->
  FailsCount r + Z.of_nat (count_failures es) < 2 ^ 63 ->
  FailsCount r <= FailsCount (run es r)
    <= FailsCount r + Z.of_nat (count_failures es).
Proof.
  revert r. induction es as [|[|] es IH]; intros r Hrange Hhi.
  - cbn. lia.
  - rewrite run_cons. cbn [step count_failures] in *.
    assert (Hstep : FailsCount r <= FailsCount (markSick r) <= FailsCount r + 1
                    /\ int64_range (FailsCount (markSick r))).
    { rewrite FailsCount_markSick. destruct (sick r); [split; [lia | exact Hrange] |].
      unfold AddInt64. unfold int64_range in Hrange.
      rewrite wrap64_small by (unfold int64_range; lia).
      unfold int64_range. lia. }
    destruct Hstep as [Hstep Hrange'].
    specialize (IH (markSick r) Hrange' ltac:(lia)). lia.
  - rewrite run_cons. cbn [step count_failures] in *.
    specialize (IH (markAlive r)). rewrite FailsCount_markAlive in IH.
    apply IH; assumption.
Qed.

End Histories.

(** ** The calls and what they leave alone *)

Lemma markSick_identity {L : Lib} (r : RPCClient L) :
  same_identity r (markSick r) /\ info (markSick r) = info r.
Proof.
  destruct r as [kr sr ? ? ? ? ? ? [|] ? ?];
    unfold markSick, same_identity; cbn -[incr64 AddInt64 Z.leb];
    destruct (5 <=? incr64 kr); cbn; auto 10.
Qed.

Lemma markAlive_identity {L : Lib} (r : RPCClient L) :
  same_identity r (markAlive r) /\ info (markAlive r) = info r.
Proof.
  destruct r as [kr sr ? ? ? ? ? ? ? ? ?];
    unfold markAlive, same_identity; cbn -[incr64 AddInt64 Z.leb];
    destruct (5 <=? incr64 sr); cbn; auto 10.
Qed.

Lemma same_identity_refl {L : Lib} (r : RPCClient L) : same_identity r r.
Proof. unfold same_identity. auto 10. Qed.

Section Calls.

Context (L : Lib).
Implicit Types r : RPCClient L.

Lemma GetBlockTemplate_frame (reserveSize : Z) (address : string) :
  notifies_failures_only (GetBlockTemplate L reserveSize address).
Proof.
  eapply notifies_failures_only_ext;
    [apply GetBlockTemplate_typedCall | apply typedCall_frame].
Qed.

Lemma GetInfo_frame : notifies_failures_only (GetInfo L).
Proof.
  eapply notifies_failures_only_ext;
    [apply GetInfo_typedCall | apply typedCall_frame].
Qed.

Lemma GetBlockCount_frame : notifies_failures_only (GetBlockCount L).
Proof.
  eapply notifies_failures_only_ext;
    [apply GetBlockCount_typedCall | apply typedCall_frame].
Qed.

Lemma GetBlockHeaderByHeight_frame (height : Z) :
  notifies_failures_only (GetBlockHeaderByHeight L height).
Proof.
  eapply notifies_failures_only_ext;
    [apply GetBlockHeaderByHeight_typedCall | apply typedCall_frame].
Qed.

(** [Check] by the outcome of its probe. *)
Lemma Check_cases (reserveSize : Z) (address : string) r :
  Check L reserveSize address r =
  match GetBlockTemplate L reserveSize address r with
  | (Panic msg, r') => (Panic msg, r')
  | (Return (_, Some e), r') => (Return (false, Some e), r')
  | (Return (_, None), r') =>
      (Return (negb (Sick (markAlive r')), None), markAlive r')
  end.
Proof.
  unfold Check, bind, modify, get, ret.
  destruct (GetBlockTemplate L reserveSize address r) as [[[x [e|]]|msg] r'];
    reflexivity.
Qed.

(** [UpdateInfo] by the outcome of [GetInfo]. *)
Lemma UpdateInfo_cases r :
  UpdateInfo L r =
  match GetInfo L r with
  | (Panic msg, r') => (Panic msg, r')
  | (Return (reply, Some e), r') => (Return (reply, Some e), r')
  | (Return (reply, None), r') =>
      (Return (reply, None), set_info (Some reply) r')
  end.
Proof.
  unfold UpdateInfo, bind, modify, ret.
  destruct (GetInfo L r) as [[[x [e|]]|msg] r']; reflexivity.
Qed.

Lemma frame_keeps_identity {A : Type}
      (call : M (RPCClient L) (A * option error)) r :
  notifies_failures_only call ->
  same_identity r (snd (call r)) /\ info (snd (call r)) = info r.
Proof.
  intros Hcall. destruct (Hcall r) as [[-> | ->] _].
  - split; [apply same_identity_refl | reflexivity].
  - apply markSick_identity.
Qed.

(** X6. [doPost] returns either an envelope without an error object and a
    nil error, the client being untouched, or a nil envelope and an error,
    after at most one failure notification: never both, never neither. *)
Theorem doPost_returns_response_or_error (url method : string) (params : any)
        r (x : option JSONRpcResp) (err : option error) (r' : RPCClient L) :
  doPost L url method params r = (Return (x, err), r') ->
  (exists env : JSONRpcResp,
     x = Some env /\ err = None /\ Error env = None /\ r' = r) \/
  (exists e : error,
     x = None /\ err = Some e /\ (r' = r \/ r' = markSick r)).
Proof.
  rewrite doPost_cases.
  destruct (newRequest L url method params) as [req|]; [| discriminate].
  destruct (client r) as [c|]; [| discriminate].
  destruct (http_Do L c req) as [[resp|] [e|]]; try discriminate;
    try (intros [= <- <- <-]; right; eauto).
  destruct (_ || _); [intros [= <- <- <-]; right; eauto |].
  destruct (json_Decode L _) as [[env|] [e|]]; try discriminate;
    try (intros [= <- <- <-]; right; eauto).
  destruct (Error env) as [m|] eqn:Herr.
  - destruct (assert_string _); [| discriminate].
    intros [= <- <- <-]; right; eauto.
  - intros [= <- <- <-]. left. eauto.
Qed.

(** X7. The health record never gates a call: what [doPost] answers depends
    on the HTTP client alone, so a Sick client is queried like an Alive one,
    and a failure is notified on the one exactly when it is on the other. *)
Theorem doPost_ignores_health (url method : string) (params : any)
        (r s : RPCClient L) :
  client s = client r ->
  fst (doPost L url method params s) = fst (doPost L url method params r) /\
  ((snd (doPost L url method params r) = r /\
    snd (doPost L url method params s) = s) \/
   (snd (doPost L url method params r) = markSick r /\
    snd (doPost L url method params s) = markSick s)).
Proof.
  intros Hc. rewrite !doPost_cases, Hc.
  destruct (newRequest L url method params) as [req|]; [| auto].
  destruct (client r) as [c|]; [| auto].
  destruct (http_Do L c req) as [[resp|] [e|]]; auto.
  destruct (_ || _); [auto |].
  destruct (json_Decode L _) as [[env|] [e|]]; auto.
  destruct (Error env) as [m|]; [| auto].
  destruct (assert_string _); auto.
Qed.

(** X8. What [Check] answers: with a nil error, the success was notified and
    the boolean is the negation of [Sick] afterwards; with an error the
    boolean is false and no success was notified, the client being as it was
    or notified of one failure.  So [Check] answers true only for a client
    that is not Sick after the check. *)
Theorem Check_answers (reserveSize : Z) (address : string) r
        (alive : bool) (err : option error) (r' : RPCClient L) :
  Check L reserveSize address r = (Return (alive, err), r') ->
  (err = None /\ r' = markAlive r /\ alive = negb (Sick r')) \/
  (exists e : error,
     err = Some e /\ alive = false /\ (r' = r \/ r' = markSick r)).
Proof.
  rewrite Check_cases.
  destruct (GetBlockTemplate_frame reserveSize address r) as [Hstate Hok].
  destruct (GetBlockTemplate L reserveSize address r) as [[[x [e|]]|msg] r1];
    cbn [snd] in Hstate; [| | discriminate].
  - intros [= <- <- <-]. right. eauto.
  - rewrite (Hok x r1 eq_refl). intros [= <- <- <-]. left. auto.
Qed.

(** The decoded reply is returned as [json.Unmarshal] leaves it. *)
Lemma typedCall_result {T : Type}
      (unmarshal : RawMessage -> option T * option error)
      (method : string) (params : any) r (u : URL L)
      (env : JSONRpcResp) (raw : RawMessage) (r' : RPCClient L) :
  Url r = Some u ->
  doPost L (URL_String L u) method params r = (Return (Some env, None), r') ->
  Result env = Some raw ->
  typedCall L unmarshal method params r = (Return (unmarshal raw), r).
Proof.
  intros Hu Hpost Hres.
  destruct (doPost_returns_envelope _ _ _ _ _ _ _ Hpost) as [Hr' _]. subst r'.
  unfold typedCall, bind, get, deref, ret.
  rewrite Hu, Hpost. cbn [fst snd]. rewrite Hres. reflexivity.
Qed.

(** X9. A result that does not decode into the reply type is no failure of
    the endpoint: each decoding call returns what [json.Unmarshal] yields,
    its error included, and the client is exactly as before; a liveness
    check whose probe ends so answers false with that error and notifies
    neither a failure nor a success. *)
Theorem undecodable_result_is_not_notified r (u : URL L) (env : JSONRpcResp)
        (raw : RawMessage) (r' : RPCClient L) :
  Url r = Some u ->
  Result env = Some raw ->
  (forall (reserveSize : Z) (address : string),
     doPost L (URL_String L u) "getblocktemplate"
            (params_GetBlockTemplate reserveSize address) r
       = (Return (Some env, None), r') ->
     GetBlockTemplate L reserveSize address r
       = (Return (Unmarshal_GetBlockTemplateReply L raw), r) /\
     forall e : error,
       snd (Unmarshal_GetBlockTemplateReply L raw) = Some e ->
       Check L reserveSize address r = (Return (false, Some e), r)) /\
  (doPost L (URL_String L u) "get_info" (Map ∅) r
     = (Return (Some env, None), r') ->
   GetInfo L r = (Return (Unmarshal_GetInfoReply L raw), r)) /\
  (doPost L (URL_String L u) "getblockcount" (Map ∅) r
     = (Return (Some env, None), r') ->
   GetBlockCount L r = (Return (Unmarshal_GetBlockCountReply L raw), r)) /\
  (forall height : Z,
     doPost L (URL_String L u) "getblockheaderbyheight"
            (params_GetBlockHeaderByHeight height) r
       = (Return (Some env, None), r') ->
     GetBlockHeaderByHeight L height r
       = (Return (Unmarshal_GetBlockHeaderReply L raw), r)).
Proof.
  intros Hu Hres. repeat apply conj.
  - intros reserveSize address Hpost.
    assert (Hcall : GetBlockTemplate L reserveSize address r
                    = (Return (Unmarshal_GetBlockTemplateReply L raw), r)).
    { rewrite GetBlockTemplate_typedCall.
      eapply typedCall_result; eassumption. }
    split; [exact Hcall |].
    intros e He. rewrite Check_cases, Hcall.
    destruct (Unmarshal_GetBlockTemplateReply L raw) as [x err].
    cbn [snd] in He. subst err. reflexivity.
  - intros Hpost. rewrite GetInfo_typedCall.
    eapply typedCall_result; eassumption.
  - intros Hpost. rewrite GetBlockCount_typedCall.
    eapply typedCall_result; eassumption.
  - intros height Hpost. rewrite GetBlockHeaderByHeight_typedCall.
    eapply typedCall_result; eassumption.
Qed.

(** X10. A liveness check that is answered with an HTTP status outside
    [200, 400) answers false with the status line as its error and leaves
    the client exactly as it was; any number of such checks in a row
    therefore leaves it as it was, never Sick for that reason. *)
Theorem rejected_status_never_sickens (reserveSize : Z) (address : string) r
        (u : URL L) (req : http.Request) (c : http.Client)
        (resp : http.Response) :
  Url r = Some u ->
  newRequest L (URL_String L u) "getblocktemplate"
             (params_GetBlockTemplate reserveSize address) = Some req ->
  client r = Some c ->
  http_Do L c req = (Some resp, None) ->
  http.StatusCode resp < 200 \/ 400 <= http.StatusCode resp ->
  Check L reserveSize address r
    = (Return (false, Some (errors.New (http.Status resp))), r) /\
  forall n : nat, Nat.iter n (probed L reserveSize address) r = r.
Proof.
  intros Hu Hreq Hc Hdo Hst.
  assert (Hcheck : Check L reserveSize address r
                   = (Return (false, Some (errors.New (http.Status resp))), r)).
  { rewrite Check_cases, GetBlockTemplate_typedCall.
    unfold typedCall, bind, get, deref, ret. rewrite Hu.
    rewrite doPost_cases, Hreq, Hc, Hdo, (status_rejected _ Hst).
    reflexivity. }
  split; [exact Hcheck |].
  induction n as [|n IH]; [reflexivity |].
  rewrite Nat.iter_succ, IH. unfold probed. rewrite Hcheck. reflexivity.
Qed.

(** X11. No call moves the client: after any typed call, after [Check] and
    after [UpdateInfo], whatever they answer, the URL, the name, the HTTP
    client and the submission counters are what they were; the typed calls
    and [Check] leave the cached info alone as well. *)
Theorem calls_keep_identity r :
  (forall (reserveSize : Z) (address : string),
     same_identity r (snd (GetBlockTemplate L reserveSize address r)) /\
     info (snd (GetBlockTemplate L reserveSize address r)) = info r) /\
  (same_identity r (snd (GetInfo L r)) /\ info (snd (GetInfo L r)) = info r) /\
  (same_identity r (snd (GetBlockCount L r)) /\
   info (snd (GetBlockCount L r)) = info r) /\
  (forall hash : string,
     same_identity r (snd (SubmitBlock L hash r)) /\
     info (snd (SubmitBlock L hash r)) = info r) /\
  (forall height : Z,
     same_identity r (snd (GetBlockHeaderByHeight L height r)) /\
     info (snd (GetBlockHeaderByHeight L height r)) = info r) /\
  (forall (reserveSize : Z) (address : string),
     same_identity r (snd (Check L reserveSize address r)) /\
     info (snd (Check L reserveSize address r)) = info r) /\
  same_identity r (snd (UpdateInfo L r)).
Proof.
  split; [intros; apply frame_keeps_identity, GetBlockTemplate_frame |].
  split; [apply frame_keeps_identity, GetInfo_frame |].
  split; [apply frame_keeps_identity, GetBlockCount_frame |].
  split; [intros; apply frame_keeps_identity, SubmitBlock_frame |].
  split; [intros; apply frame_keeps_identity, GetBlockHeaderByHeight_frame |].
  split.
  - intros reserveSize address. rewrite Check_cases.
    destruct (GetBlockTemplate_frame reserveSize address r) as [Hstate Hok].
    pose proof (frame_keeps_identity _ r
                  (GetBlockTemplate_frame reserveSize address)) as Hid.
    destruct (GetBlockTemplate L reserveSize address r) as [[[x [e|]]|msg] r1];
      cbn [snd] in *; try exact Hid.
    rewrite (Hok x r1 eq_refl). apply markAlive_identity.
  - rewrite UpdateInfo_cases.
    pose proof (frame_keeps_identity _ r GetInfo_frame) as [Hid _].
    destruct (GetInfo L r) as [[[x [e|]]|msg] r1]; cbn [snd] in *;
      exact Hid.
Qed.

(** X12. A get-info call that succeeds without a result erases the cache:
    [UpdateInfo] stores the nil reply, and [Info] answers nil afterwards
    whatever snapshot was held before. *)
Theorem absent_result_erases_snapshot r (u : URL L) (env : JSONRpcResp)
        (r' : RPCClient L) :
  Url r = Some u ->
  doPost L (URL_String L u) "get_info" (Map ∅) r = (Return (Some env, None), r') ->
  Result env = None ->
  UpdateInfo L r = (Return (None, None), set_info (Some None) r) /\
  Info (snd (UpdateInfo L r)) = None.
Proof.
  intros Hu Hpost Hres.
  destruct (doPost_returns_envelope _ _ _ _ _ _ _ Hpost) as [Hr' _]. subst r'.
  assert (Hcall : UpdateInfo L r = (Return (None, None), set_info (Some None) r)).
  { rewrite UpdateInfo_cases, GetInfo_typedCall.
    rewrite (typedCall_absent_result _ _ _ _ _ _ _ _ Hu Hpost Hres).
    reflexivity. }
  split; [exact Hcall |]. rewrite Hcall. reflexivity.
Qed.

(** X13. A client that [NewRPCClient] returns starts in the initial state
    with an empty cache: [Info] answers nil, [Sick] answers false, it takes
    five failures in a row to make it Sick, and it carries the descriptor's
    name and the parsed URL. *)
Theorem constructed_client_starts_alive (cfg : pool.Upstream (Port L))
        (rc : RPCClient L) (err : option error) :
  NewRPCClient L (Some cfg) = Return (Some rc, err) ->
  err = None /\
  initial rc /\ FailsCount rc = 0 /\ Info rc = None /\
  Name rc = pool.Name cfg /\
  Url rc = fst (url_Parse L (rawUrl cfg)) /\
  (forall n : nat, (n < 5)%nat -> Sick (Nat.iter n markSick rc) = false) /\
  Sick (Nat.iter 5 markSick rc) = true.
Proof.
  unfold NewRPCClient. fold (rawUrl cfg).
  destruct (url_Parse L (rawUrl cfg)) as [u [e|]]; [discriminate |].
  intros [= <- <-]. cbn [fst].
  split; [reflexivity |]. split; [repeat split |].
  split; [reflexivity |]. split; [reflexivity |].
  split; [reflexivity |]. split; [reflexivity |].
  unfold Sick. split.
  - intros n Hn.
    destruct (failures_in_a_row
                (SetClient (Some {| http.Timeout :=
                                      fst (time_ParseDuration L (pool.Timeout cfg)) |})
                   {| sickRate := 0; successRate := 0; Accepts := 0;
                      Rejects := 0; LastSubmissionAt := 0; FailsCount := 0;
                      Url := u; Name := pool.Name cfg; sick := false;
                      client := None; info := None |}) n)
      as [_ ->]; [reflexivity | cbn; lia | cbn; lia |].
    cbn [sickRate SetClient set_client]. apply Z.leb_gt. lia.
  - destruct (failures_in_a_row
                (SetClient (Some {| http.Timeout :=
                                      fst (time_ParseDuration L (pool.Timeout cfg)) |})
                   {| sickRate := 0; successRate := 0; Accepts := 0;
                      Rejects := 0; LastSubmissionAt := 0; FailsCount := 0;
                      Url := u; Name := pool.Name cfg; sick := false;
                      client := None; info := None |}) 5)
      as [_ ->]; [reflexivity | cbn; lia | cbn; lia |].
    reflexivity.
Qed.

(** X14. The request [doPost] sends is the one [http.NewRequest] built for a
    POST of the serialised request object, with the headers [Content-Type]
    and [Accept] set to [application/json] and [Content-Length] set to the
    converted body length, whatever those three were, and no other header
    touched. *)
Theorem request_headers (url method : string) (params : any)
        (req : http.Request) :
  newRequest L url method params = Some req ->
  exists req0 : http.Request,
    fst (http_NewRequest L "POST" url (fst (json_Marshal L (jsonReq method params))))
      = Some req0 /\
    http.Method req = http.Method req0 /\
    http.URL req = http.URL req0 /\
    http.ReqBody req = http.ReqBody req0 /\
    http.Header req !! "Content-Type" = Some ["application/json"] /\
    http.Header req !! "Accept" = Some ["application/json"] /\
    http.Header req !! "Content-Length" =
      Some [string_of_int L
              (Z.of_nat (length (fst (json_Marshal L (jsonReq method params)))))] /\
    forall key : string,
      key <> "Content-Type" -> key <> "Accept" -> key <> "Content-Length" ->
      http.Header req !! key = http.Header req0 !! key.
Proof.
  unfold newRequest. fold (jsonReq method params). cbv zeta.
  destruct (fst (http_NewRequest L _ _ _)) as [req0|]; [| discriminate].
  intros [= <-]. exists req0. unfold http.Header_Set. cbn.
  split; [reflexivity |]. split; [reflexivity |]. split; [reflexivity |].
  split; [reflexivity |].
  split; [rewrite lookup_insert_ne by discriminate; apply lookup_insert_eq |].
  split; [apply lookup_insert_eq |].
  split; [rewrite !lookup_insert_ne by discriminate; apply lookup_insert_eq |].
  intros key H1 H2 H3. rewrite !lookup_insert_ne by congruence. reflexivity.
Qed.

End Calls.

(** ** The further properties on concrete clients *)

Lemma reachable_run {L : Lib} (es : list event) (r : RPCClient L) :
  reachable r -> reachable (run es r).
Proof.
  revert r. induction es as [|[|] es IH]; intros r Hr; [exact Hr | |];
    rewrite run_cons; apply IH; [apply reach_markSick | apply reach_markAlive];
    exact Hr.
Qed.

Lemma Sick_changes_only_at_thresholds_witness :
  Sick Scripted.sickened = true /\
  Sick (Nat.iter 7 markSick Scripted.sickened) = true /\
  Sick (Nat.iter 4 markSick Scripted.alive) = false /\
  5 <= sickRate (markSick (Nat.iter 4 markSick Scripted.alive)).
Proof.
  split; [vm_compute; reflexivity |].
  split.
  - apply (Sick_changes_only_at_thresholds Scripted.sickened).
    vm_compute. reflexivity.
  - split; [vm_compute; reflexivity |].
    apply (Sick_changes_only_at_thresholds (Nat.iter 4 markSick Scripted.alive));
      vm_compute; reflexivity.
Defined.

Lemma recovery_completes_the_streak_witness :
  reachable (markAlive Scripted.sickened) /\
  Sick (markAlive Scripted.sickened) = true /\
  successRate (markAlive Scripted.sickened) = 1 /\
  Sick (Nat.iter 3 markAlive (markAlive Scripted.sickened)) = true /\
  Sick (Nat.iter 4 markAlive (markAlive Scripted.sickened)) = false.
Proof.
  assert (Hr : reachable (markAlive Scripted.sickened))
    by apply reach_markAlive, reachable_sickened.
  split; [exact Hr |]. split; [vm_compute; reflexivity |].
  split; [vm_compute; reflexivity |].
  destruct (recovery_completes_the_streak (markAlive Scripted.sickened) Hr)
    as (Hbefore & Hat & _); [vm_compute; reflexivity |].
  split; [apply Hbefore; vm_compute; lia | exact Hat].
Defined.

Lemma five_in_a_row_decide_witness :
  reachable (markAlive (markSick Scripted.alive)) /\
  Sick (Nat.iter 6 markSick (markAlive (markSick Scripted.alive))) = true /\
  Sick (Nat.iter 6 markAlive (markAlive (markSick Scripted.alive))) = false /\
  sickRate (Nat.iter 6 markAlive (markAlive (markSick Scripted.alive))) = 0.
Proof.
  assert (Hr : reachable (markAlive (markSick Scripted.alive)))
    by apply reach_markAlive, reach_markSick, reach_initial, initial_alive.
  split; [exact Hr |].
  apply (five_in_a_row_decide (markAlive (markSick Scripted.alive)) 6 Hr). lia.
Defined.

Lemma failures_accumulate_across_successes_witness :
  initial Scripted.alive /\
  sickRate (run [Failure; Success; Failure; Success; Success; Failure;
                 Success; Failure; Success; Failure] Scripted.alive) = 5 /\
  Sick (run [Failure; Success; Failure; Success; Success; Failure;
             Success; Failure; Success; Failure] Scripted.alive) = true.
Proof.
  split; [apply initial_alive |].
  apply (failures_accumulate_across_successes Scripted.alive
           [Failure; Success; Failure; Success; Success; Failure;
            Success; Failure; Success; Failure] initial_alive);
    [reflexivity | cbn; lia].
Defined.

Lemma FailsCount_bounded_by_failures_witness :
  int64_range (FailsCount Scripted.alive) /\
  FailsCount Scripted.alive
    <= FailsCount (run [Failure; Success; Failure; Failure] Scripted.alive)
    <= FailsCount Scripted.alive + 3.
Proof.
  assert (Hrange : int64_range (FailsCount Scripted.alive))
    by (unfold int64_range; cbn; lia).
  split; [exact Hrange |].
  apply (FailsCount_bounded_by_failures Scripted.alive
           [Failure; Success; Failure; Failure] Hrange).
  cbn. lia.
Defined.

Lemma doPost_returns_response_or_error_witness :
  doPost Scripted.serving Scripted.daemon "getblockcount" (Map ∅)
         (Scripted.fresh Scripted.serving Scripted.daemon)
    = (Return (fst (Scripted.envelope (Some ["{"%byte; "}"%byte]) None), None),
       Scripted.fresh Scripted.serving Scripted.daemon) /\
  ((exists env : JSONRpcResp,
      fst (Scripted.envelope (Some ["{"%byte; "}"%byte]) None) = Some env /\
      @None error = None /\ Error env = None /\
      Scripted.fresh Scripted.serving Scripted.daemon
        = Scripted.fresh Scripted.serving Scripted.daemon) \/
   (exists e : error,
      fst (Scripted.envelope (Some ["{"%byte; "}"%byte]) None) = None /\
      None = Some e /\
      (Scripted.fresh Scripted.serving Scripted.daemon
         = Scripted.fresh Scripted.serving Scripted.daemon \/
       Scripted.fresh Scripted.serving Scripted.daemon
         = markSick (Scripted.fresh Scripted.serving Scripted.daemon)))).
Proof.
  assert (Hpost :
    doPost Scripted.serving Scripted.daemon "getblockcount" (Map ∅)
           (Scripted.fresh Scripted.serving Scripted.daemon)
      = (Return (fst (Scripted.envelope (Some ["{"%byte; "}"%byte]) None), None),
         Scripted.fresh Scripted.serving Scripted.daemon))
    by (vm_compute; reflexivity).
  split; [exact Hpost |].
  exact (doPost_returns_response_or_error Scripted.serving _ _ _ _ _ _ _ Hpost).
Defined.

Lemma doPost_ignores_health_witness :
  client Scripted.sickened = client Scripted.alive /\
  fst (doPost Scripted.quiet Scripted.daemon "get_info" (Map ∅) Scripted.sickened)
    = fst (doPost Scripted.quiet Scripted.daemon "get_info" (Map ∅) Scripted.alive).
Proof.
  assert (Hc : client Scripted.sickened = client Scripted.alive)
    by (vm_compute; reflexivity).
  split; [exact Hc |].
  apply (doPost_ignores_health Scripted.quiet Scripted.daemon "get_info" (Map ∅)
           Scripted.alive Scripted.sickened Hc).
Defined.

Lemma Check_answers_witness :
  Check Scripted.serving 8 "4A" (Scripted.fresh Scripted.serving Scripted.daemon)
    = (Return (true, None),
       markAlive (Scripted.fresh Scripted.serving Scripted.daemon)) /\
  ((@None error = None /\
    markAlive (Scripted.fresh Scripted.serving Scripted.daemon)
      = markAlive (Scripted.fresh Scripted.serving Scripted.daemon) /\
    true = negb (Sick (markAlive (Scripted.fresh Scripted.serving Scripted.daemon)))) \/
   (exists e : error,
      None = Some e /\ true = false /\
      (markAlive (Scripted.fresh Scripted.serving Scripted.daemon)
         = Scripted.fresh Scripted.serving Scripted.daemon \/
       markAlive (Scripted.fresh Scripted.serving Scripted.daemon)
         = markSick (Scripted.fresh Scripted.serving Scripted.daemon)))).
Proof.
  assert (Hcheck :
    Check Scripted.serving 8 "4A" (Scripted.fresh Scripted.serving Scripted.daemon)
      = (Return (true, None),
         markAlive (Scripted.fresh Scripted.serving Scripted.daemon)))
    by (vm_compute; reflexivity).
  split; [exact Hcheck |].
  exact (Check_answers Scripted.serving _ _ _ _ _ _ Hcheck).
Defined.

Lemma undecodable_result_is_not_notified_witness :
  Url Truncated.fresh = Some Scripted.daemon /\
  GetBlockTemplate Truncated.lib 8 "4A" Truncated.fresh
    = (Return (None, Some Truncated.unexpected_end), Truncated.fresh) /\
  Check Truncated.lib 8 "4A" Truncated.fresh
    = (Return (false, Some Truncated.unexpected_end), Truncated.fresh) /\
  GetInfo Truncated.lib Truncated.fresh
    = (Return (None, Some Truncated.unexpected_end), Truncated.fresh).
Proof.
  split; [reflexivity |].
  destruct (undecodable_result_is_not_notified Truncated.lib Truncated.fresh
              Scripted.daemon
              {| Id := Some []; Result := Some ["{"%byte]; Error := None |}
              ["{"%byte] Truncated.fresh eq_refl eq_refl)
    as (Htemplate & Hinfo & _).
  destruct (Htemplate 8 "4A") as [Hcall Hcheck]; [vm_compute; reflexivity |].
  split; [exact Hcall |].
  split; [apply Hcheck; reflexivity |].
  apply Hinfo. vm_compute. reflexivity.
Defined.

Lemma rejected_status_never_sickens_witness :
  Check Scripted.overloaded 8 "4A"
        (Scripted.fresh Scripted.overloaded Scripted.daemon)
    = (Return (false, Some (errors.New "500 Internal Server Error")),
       Scripted.fresh Scripted.overloaded Scripted.daemon) /\
  Sick (Nat.iter 5 (probed Scripted.overloaded 8 "4A")
                 (Scripted.fresh Scripted.overloaded Scripted.daemon)) = false.
Proof.
  destruct (rejected_status_never_sickens Scripted.overloaded 8 "4A"
              (Scripted.fresh Scripted.overloaded Scripted.daemon)
              Scripted.daemon _ _
              (Scripted.response 500 "500 Internal Server Error")
              eq_refl eq_refl eq_refl eq_refl)
    as [Hcheck Hrepeat]; [right; cbn; lia |].
  split; [exact Hcheck |]. rewrite Hrepeat. reflexivity.
Defined.

Lemma absent_result_erases_snapshot_witness :
  Info informed = Some (GetInfoReply.mk 8 12 100 3 "OK") /\
  Url informed = Some Scripted.daemon /\
  UpdateInfo Scripted.quiet informed
    = (Return (None, None), set_info (Some None) informed) /\
  Info (snd (UpdateInfo Scripted.quiet informed)) = None.
Proof.
  split; [reflexivity |]. split; [reflexivity |].
  apply (absent_result_erases_snapshot Scripted.quiet informed Scripted.daemon
           {| Id := Some []; Result := None; Error := None |} informed eq_refl);
    vm_compute; reflexivity.
Defined.

Lemma constructed_client_starts_alive_witness :
  exists rc : RPCClient Scripted.quiet,
    NewRPCClient Scripted.quiet (Some (Scripted.upstream "10s"))
      = Return (Some rc, None) /\
    Info rc = None /\ Name rc = "main" /\
    Url rc = Some Scripted.daemon /\
    Sick (Nat.iter 4 markSick rc) = false /\
    Sick (Nat.iter 5 markSick rc) = true.
Proof.
  eexists. split; [vm_compute; reflexivity |].
  destruct (constructed_client_starts_alive Scripted.quiet
              (Scripted.upstream "10s") _ None eq_refl)
    as (_ & _ & _ & Hinfo & Hname & Hurl & Hbelow & Hfifth).
  split; [exact Hinfo |]. split; [exact Hname |].
  split; [etransitivity; [exact Hurl | vm_compute; reflexivity] |].
  split; [apply Hbelow; lia | exact Hfifth].
Defined.

Lemma request_headers_witness :
  exists req : http.Request,
    newRequest Truncated.lib Scripted.daemon "get_info" (Map ∅) = Some req /\
    http.Method req = "POST" /\
    http.URL req = Scripted.daemon /\
    http.Header req !! "Content-Type" = Some ["application/json"] /\
    http.Header req !! "Accept" = Some ["application/json"].
Proof.
  eexists. split; [vm_compute; reflexivity |].
  destruct (request_headers Truncated.lib Scripted.daemon "get_info" (Map ∅) _ eq_refl)
    as (req0 & Hreq0 & Hmethod & Hurl & _ & Htype & Haccept & _).
  injection Hreq0 as <-.
  split; [exact Hmethod |]. split; [exact Hurl |].
  split; [exact Htype | exact Haccept].
Defined.
